(** * Lighthouse analyzer (src/analyzer.js): a shallow embedding and its properties

    The script reads a comma-separated URL list from the environment, runs
    the external [lighthouse] program twice per URL (mobile, desktop),
    reduces each report to nine metrics and writes three artifacts: a CSV
    file, an HTML summary and a JSON archive.

    Conventions of the embedding:
    - a JavaScript number is an IEEE 754 binary64 value, represented by
      [spec_float] at precision 53 and maximal exponent 1024;
    - a JavaScript string is represented by the UTF-8 encoding of its text;
    - a parsed JSON object is a finite map from property names to values;
    - the services of the runtime and of the operating system (clock,
      process execution, file system, number and date formatting) are the
      fields of a [Host]; the program is written in a state and exception
      monad over the host's world;
    - console output is not modelled. *)

From Stdlib Require Import ZArith NArith Ascii String Floats.SpecFloat Lia.
From stdpp Require Import gmap strings list.

Open Scope Z_scope.

(** ** Numbers *)

Module Number.

Definition number : Type := spec_float.

Definition prec : Z := 53.
Definition emax : Z := 1024.

(** The number denoted by an integer literal. *)
Definition ofZ (n : Z) : number := binary_normalize prec emax n 0 false.

Definition NaN : number := S754_nan.

(** [x * y] and [x / y]. *)
Definition mul : number -> number -> number := SFmul prec emax.
Definition div : number -> number -> number := SFdiv prec emax.

(** [x >= y], [x < y] and [x === y] on numbers; all are false when an
    operand is NaN, and [-0 === 0]. *)
Definition ge (x y : number) : bool := SFleb y x.
Definition less (x y : number) : bool := SFltb x y.
Definition strictEq (x y : number) : bool := SFeqb x y.

(** Every number the runtime produces is a canonical binary64 value. *)
Definition wellFormed (x : number) : bool := valid_binary prec emax x.

Definition isFinite (x : number) : bool :=
  match x with
  | S754_zero _ | S754_finite _ _ _ => true
  | S754_infinity _ | S754_nan => false
  end.

(** ToBoolean on a number: false for [+0], [-0] and NaN. *)
Definition truthy (x : number) : bool :=
  match x with
  | S754_zero _ | S754_nan => false
  | S754_infinity _ | S754_finite _ _ _ => true
  end.

(** [Math.round]: the integer closest to [x], ties towards +infinity;
    NaN, the zeros and the infinities are returned unchanged and a result
    that rounds to zero keeps the sign of [x].  The integer is
    [floor (x + 1/2)], computed exactly. *)
Definition Math_round (x : number) : number :=
  match x with
  | S754_finite s m e =>
      if 0 <=? e then x
      else
        let n := (2 * cond_Zopp s (Zpos m) + 2 ^ (- e)) / 2 ^ (1 - e) in
        if n =? 0 then S754_zero s else ofZ n
  | _ => x
  end.

End Number.

Export Number.

(** ** Strings *)

Module Str.

Definition LF : string := String (ascii_of_nat 10) EmptyString.
Definition DQ : string := String (ascii_of_nat 34) EmptyString.

Definition code (c : ascii) : N := N_of_ascii c.

(** White space and line terminators of one byte: TAB, LF, VT, FF, CR, SP. *)
Definition ws1 (a : ascii) : bool :=
  ((9 <=? code a) && (code a <=? 13) || (code a =? 32))%N.

(** U+00A0. *)
Definition ws2 (a b : ascii) : bool :=
  ((code a =? 194) && (code b =? 160))%N.

(** U+1680, U+2000..U+200A, U+2028, U+2029, U+202F, U+205F, U+3000,
    U+FEFF. *)
Definition ws3 (a b c : ascii) : bool :=
  ((code a =? 225) && (code b =? 154) && (code c =? 128)
   || (code a =? 226) && (code b =? 128)
      && ((128 <=? code c) && (code c <=? 138)
          || (code c =? 168) || (code c =? 169) || (code c =? 175))
   || (code a =? 226) && (code b =? 129) && (code c =? 159)
   || (code a =? 227) && (code b =? 128) && (code c =? 128)
   || (code a =? 239) && (code b =? 187) && (code c =? 191))%N.

(** Removes the white space at the head of a byte sequence; [fwd] tells
    whether the sequence is read forwards or backwards. *)
Fixpoint strip (fwd : bool) (l : list ascii) : list ascii :=
  match l with
  | [] => []
  | a :: l1 =>
      if ws1 a then strip fwd l1
      else
        match l1 with
        | b :: l2 =>
            if (if fwd then ws2 a b else ws2 b a) then strip fwd l2
            else
              match l2 with
              | c :: l3 =>
                  if (if fwd then ws3 a b c else ws3 c b a)
                  then strip fwd l3 else l
              | [] => l
              end
        | [] => l
        end
  end.

(** [String.prototype.trim]. *)
Definition trim (s : string) : string :=
  string_of_list_ascii
    (rev (strip false (rev (strip true (list_ascii_of_string s))))).

(** [s.split(sep)] for a separator of one byte. *)
Fixpoint split (sep : ascii) (s : string) : list string :=
  match s with
  | EmptyString => [EmptyString]
  | String c r =>
      if Ascii.eqb c sep then EmptyString :: split sep r
      else
        match split sep r with
        | p :: ps => String c p :: ps
        | [] => [String c EmptyString]
        end
  end.

(** [a.join(sep)]. *)
Definition join (sep : string) (l : list string) : string :=
  String.concat sep l.

(** The lines of a text: a line feed ends a line. *)
Fixpoint lines (s : string) : list string :=
  match s with
  | EmptyString => []
  | String c r =>
      if Ascii.eqb c (ascii_of_nat 10) then EmptyString :: lines r
      else
        match lines r with
        | p :: ps => String c p :: ps
        | [] => [String c EmptyString]
        end
  end.

Fixpoint mapChars (f : ascii -> ascii) (s : string) : string :=
  match s with
  | EmptyString => EmptyString
  | String c r => String (f c) (mapChars f r)
  end.

(** [s.replace(/[:.]/g, '-')]. *)
Definition replaceColonDot (s : string) : string :=
  mapChars (fun c => if Ascii.eqb c ":" || Ascii.eqb c "." then "-"%char else c) s.

(** [s.slice(0, -n)]. *)
Definition sliceEnd (n : nat) (s : string) : string :=
  String.substring 0 (String.length s - n) s.

Fixpoint occurs (c : ascii) (s : string) : bool :=
  match s with
  | EmptyString => false
  | String d r => Ascii.eqb d c || occurs c r
  end.

Definition digit (n : nat) : ascii := ascii_of_nat (48 + n).

Fixpoint digitsOf (fuel : nat) (n : N) (acc : string) : string :=
  match fuel with
  | O => acc
  | S k =>
      let acc' := String (digit (N.to_nat (n mod 10))) acc in
      if (n <? 10)%N then acc' else digitsOf k (n / 10)%N acc'
  end.

(** The decimal numeral of a natural number, as Number::toString prints
    an integer below 10^21. *)
Definition decimalN (n : N) : string :=
  digitsOf (S (N.to_nat (N.log2 n))) n EmptyString.

Definition decimal (z : Z) : string :=
  match z with
  | Zneg p => String "-" (decimalN (Npos p))
  | _ => decimalN (Z.to_N z)
  end.

End Str.

Export Str.

(** ** Values, errors and completions *)

(** The values a report leaf or a metric field holds. *)
Inductive value : Type :=
  | Undefined
  | Null
  | Num (x : number).

(** ToNumber. *)
Definition ToNumber (v : value) : number :=
  match v with
  | Undefined => NaN
  | Null => S754_zero false
  | Num x => x
  end.

(** ToBoolean. *)
Definition ToBoolean (v : value) : bool :=
  match v with
  | Undefined | Null => false
  | Num x => truthy x
  end.

(** [v === null || v === undefined]. *)
Definition nullish (v : value) : bool :=
  match v with
  | Undefined | Null => true
  | Num _ => false
  end.

Record Error : Type := mkError { message : string }.

(** The error V8 raises when a property of [undefined] is read. *)
Definition TypeError_undefined (property : string) : Error :=
  mkError ("Cannot read properties of undefined (reading '" +:+ property +:+ "')").

(** The outcome of evaluating an expression: a value or a thrown error. *)
Inductive Completion (A : Type) : Type :=
  | Normal (a : A)
  | Throw (error : Error).

Arguments Normal {A} a.
Arguments Throw {A} error.

Definition andThen {A B} (c : Completion A) (k : A -> Completion B) : Completion B :=
  match c with
  | Normal a => k a
  | Throw e => Throw e
  end.

(** ** Reports and metric sets *)

Record Category : Type := { score : value }.
Record Audit : Type := { numericValue : value }.

(** A report as [extractMetrics] reads it: the [categories] and [audits]
    objects; an entry, and a leaf of an entry, may be missing. *)
Record Report : Type := {
  categories : gmap string Category;
  audits : gmap string Audit
}.

Record MetricSet : Type := {
  performance : value;
  accessibility : value;
  bestPractices : value;
  seo : value;
  fcp : value;
  lcp : value;
  tbt : value;
  cls : value;
  si : value;
  error : option string
}.

(** [categories[name].score]: reading [score] of a missing entry throws. *)
Definition categoryScore (categories : gmap string Category) (name : string)
  : Completion value :=
  match categories !! name with
  | Some category => Normal (score category)
  | None => Throw (TypeError_undefined "score")
  end.

(** [Math.round(categories[name].score * 100)]. *)
Definition scoreField (categories : gmap string Category) (name : string)
  : Completion value :=
  andThen (categoryScore categories name)
    (fun s => Normal (Num (Math_round (mul (ToNumber s) (ofZ 100))))).

(** [audits[name]?.numericValue]. *)
Definition auditNumericValue (audits : gmap string Audit) (name : string) : value :=
  match audits !! name with
  | Some audit => numericValue audit
  | None => Undefined
  end.

(** [audits[name]?.numericValue ? Math.round(audits[name].numericValue) : null]. *)
Definition roundedField (audits : gmap string Audit) (name : string) : value :=
  if ToBoolean (auditNumericValue audits name)
  then Num (Math_round (ToNumber (auditNumericValue audits name)))
  else Null.

(** [audits[name]?.numericValue ? audits[name].numericValue : null]. *)
Definition rawField (audits : gmap string Audit) (name : string) : value :=
  if ToBoolean (auditNumericValue audits name)
  then auditNumericValue audits name
  else Null.

Definition extractMetrics (report : Report) : Completion MetricSet :=
  let categories := categories report in
  let audits := audits report in
  andThen (scoreField categories "performance") (fun performance =>
  andThen (scoreField categories "accessibility") (fun accessibility =>
  andThen (scoreField categories "best-practices") (fun bestPractices =>
  andThen (scoreField categories "seo") (fun seo =>
  Normal {|
    performance := performance;
    accessibility := accessibility;
    bestPractices := bestPractices;
    seo := seo;
    fcp := roundedField audits "first-contentful-paint";
    lcp := roundedField audits "largest-contentful-paint";
    tbt := roundedField audits "total-blocking-time";
    cls := rawField audits "cumulative-layout-shift";
    si := roundedField audits "speed-index";
    error := None
  |})))).

(** The metric set recorded when a profile's analysis throws. *)
Definition failedMetrics (error : Error) : MetricSet := {|
  performance := Null;
  accessibility := Null;
  bestPractices := Null;
  seo := Null;
  fcp := Null;
  lcp := Null;
  tbt := Null;
  cls := Null;
  si := Null;
  error := Some (message error)
|}.

Record URLResult : Type := {
  url : string;
  desktop : MetricSet;
  mobile : MetricSet
}.

(** ** The traffic-light indicator of the HTML summary *)

Definition indicatorNeutral : string := "⚫".
Definition indicatorGreen : string := "🟢".
Definition indicatorYellow : string := "🟡".
Definition indicatorRed : string := "🔴".

Definition getEmojiHTML (score : value) : string :=
  match score with
  | Null | Undefined => indicatorNeutral
  | Num x =>
      if ge x (ofZ 90) then indicatorGreen
      else if ge x (ofZ 50) then indicatorYellow
      else indicatorRed
  end.

(** ** JSON

    [jsval] is the data [JSON.stringify] walks and [JSON.parse] returns;
    [json] is a JSON document.  A document stands for its text: the
    correspondence between the two is the grammar of JSON, which the
    runtime implements. *)

Set Warnings "-register-all".

Inductive jsval : Type :=
  | JUndefined
  | JNull
  | JBoolean (b : bool)
  | JNumber (x : number)
  | JString (s : string)
  | JArray (elements : list jsval)
  | JObject (properties : list (string * jsval)).

Inductive json : Type :=
  | json_null
  | json_bool (b : bool)
  | json_number (x : number)
  | json_string (s : string)
  | json_array (elements : list json)
  | json_object (members : list (string * json)).

(** The numeral [JSON.stringify] prints for a finite number denotes that
    number; negative zero is printed as [0]. *)
Definition numberToken (x : number) : json :=
  match x with
  | S754_zero _ => json_number (S754_zero false)
  | S754_finite _ _ _ => json_number x
  | S754_infinity _ | S754_nan => json_null
  end.

(** SerializeJSONProperty: [None] stands for [undefined]. A property whose
    value serializes to [undefined] is left out of its object; such an
    element of an array is written [null]. *)
Fixpoint serializeJSONProperty (v : jsval) : option json :=
  match v with
  | JUndefined => None
  | JNull => Some json_null
  | JBoolean b => Some (json_bool b)
  | JNumber x => Some (numberToken x)
  | JString s => Some (json_string s)
  | JArray elements =>
      Some (json_array
              (List.map (fun e => default json_null (serializeJSONProperty e))
                        elements))
  | JObject properties =>
      Some (json_object
              ((fix members (ps : list (string * jsval)) : list (string * json) :=
                  match ps with
                  | [] => []
                  | (k, e) :: rest =>
                      match serializeJSONProperty e with
                      | Some j => (k, j) :: members rest
                      | None => members rest
                      end
                  end) properties))
  end.

(** [JSON.stringify(v, null, 2)]. *)
Definition JSON_stringify (v : jsval) : option json := serializeJSONProperty v.

(** [JSON.parse] of the text of a document. *)
Fixpoint JSON_parse (document : json) : jsval :=
  match document with
  | json_null => JNull
  | json_bool b => JBoolean b
  | json_number x => JNumber x
  | json_string s => JString s
  | json_array elements => JArray (List.map JSON_parse elements)
  | json_object members =>
      JObject (List.map (fun m => (fst m, JSON_parse (snd m))) members)
  end.

(** [object[name]] on a value. *)
Fixpoint lookupProperty (name : string) (ps : list (string * jsval)) : jsval :=
  match ps with
  | [] => JUndefined
  | (k, v) :: rest => if String.eqb k name then v else lookupProperty name rest
  end.

Definition getProperty (v : jsval) (name : string) : jsval :=
  match v with
  | JObject ps => lookupProperty name ps
  | _ => JUndefined
  end.

(** The object graph of a batch result, properties in creation order. *)
Definition valueJS (v : value) : jsval :=
  match v with
  | Undefined => JUndefined
  | Null => JNull
  | Num x => JNumber x
  end.

Definition metricSetJS (m : MetricSet) : jsval :=
  JObject
    ([("performance", valueJS (performance m));
      ("accessibility", valueJS (accessibility m));
      ("bestPractices", valueJS (bestPractices m));
      ("seo", valueJS (seo m));
      ("fcp", valueJS (fcp m));
      ("lcp", valueJS (lcp m));
      ("tbt", valueJS (tbt m));
      ("cls", valueJS (cls m));
      ("si", valueJS (si m))]
     ++ match error m with
        | Some msg => [("error", JString msg)]
        | None => []
        end).

Definition urlResultJS (r : URLResult) : jsval :=
  JObject [("url", JString (url r));
           ("desktop", metricSetJS (desktop r));
           ("mobile", metricSetJS (mobile r))].

Definition resultsJS (results : list URLResult) : jsval :=
  JArray (List.map urlResultJS results).

(** ** The host: runtime and operating system *)

Inductive Preset : Type := PresetMobile | PresetDesktop.

Definition presetName (preset : Preset) : string :=
  match preset with
  | PresetMobile => "mobile"
  | PresetDesktop => "desktop"
  end.

Inductive FileContent : Type :=
  | TextFile (text : string)
  | JSONFile (document : json).

(** The calls that act on the outside world, in the order they are made. *)
Inductive Event : Type :=
  | CallExec (command : string)
  | CallUnlink (path : string)
  | CallMkdir (path : string)
  | CallWriteFile (path : string) (content : FileContent).

Record Host : Type := {
  World : Type;
  (** [Date.now()] and [new Date()]: milliseconds since the epoch. *)
  clock : World -> Z * World;
  (** [execAsync(command)], awaited. *)
  execAsync : string -> World -> Completion unit * World;
  fs_readFileSync : string -> World -> Completion string * World;
  (** [JSON.parse] of the text of a report. *)
  parseReport : string -> Completion Report;
  fs_unlinkSync : string -> World -> Completion unit * World;
  fs_existsSync : string -> World -> bool * World;
  fs_mkdirSync : string -> World -> Completion unit * World;
  fs_writeFileSync : string -> FileContent -> World -> Completion unit * World;
  (** [Date.prototype.toISOString] and
      [toLocaleString('es-ES', {dateStyle: 'full', timeStyle: 'short',
      timeZone: 'Europe/Madrid'})] of a time value. *)
  toISOString : Z -> string;
  toLocaleString : Z -> string;
  (** Number::toString. *)
  NumberToString : number -> string
}.

(** ** The program monad: state and exceptions over the host's world *)

Section Program.

Context (h : Host).

Record State : Type := { world : World h; trace : list Event }.

Definition M (A : Type) : Type := State -> Completion A * State.

Definition ret {A} (a : A) : M A := fun s => (Normal a, s).

Definition throw {A} (e : Error) : M A := fun s => (Throw e, s).

Definition bind {A B} (c : M A) (k : A -> M B) : M B :=
  fun s =>
    match c s with
    | (Normal a, s') => k a s'
    | (Throw e, s') => (Throw e, s')
    end.

(** [try { body } catch (error) { handler }]. *)
Definition tryCatch {A} (body : M A) (handler : Error -> M A) : M A :=
  fun s =>
    match body s with
    | (Normal a, s') => (Normal a, s')
    | (Throw e, s') => handler e s'
    end.

Definition lift {A} (c : Completion A) : M A := fun s => (c, s).

Notation "'let*' x ':=' c 'in' k" := (bind c (fun x => k))
  (at level 10, x name, c at level 100, k at level 200).

(** A host call that reads the world. *)
Definition observe {A} (f : World h -> A * World h) : M A :=
  fun s => let (a, w) := f (world s) in
           (Normal a, {| world := w; trace := trace s |}).

(** A host call that acts on the world: it is recorded, then made. *)
Definition perform {A} (ev : Event) (f : World h -> Completion A * World h) : M A :=
  fun s => let (c, w) := f (world s) in
           (c, {| world := w; trace := trace s ++ [ev] |}).

Definition Date_now : M Z := observe (clock h).
Definition exec (command : string) : M unit :=
  perform (CallExec command) (execAsync h command).
Definition readFileSync (path : string) : M string :=
  fun s => let (c, w) := fs_readFileSync h path (world s) in
           (c, {| world := w; trace := trace s |}).
Definition unlinkSync (path : string) : M unit :=
  perform (CallUnlink path) (fs_unlinkSync h path).
Definition existsSync (path : string) : M bool := observe (fs_existsSync h path).
Definition mkdirSync (path : string) : M unit :=
  perform (CallMkdir path) (fs_mkdirSync h path).
Definition writeFileSync (path : string) (content : FileContent) : M unit :=
  perform (CallWriteFile path content) (fs_writeFileSync h path content).

(** *** runLighthouse *)

Definition tempFile (preset : Preset) (now : Z) : string :=
  "temp_" +:+ presetName preset +:+ "_" +:+ decimal now +:+ ".json".

Definition presetFlag (preset : Preset) : string :=
  match preset with
  | PresetDesktop => "--preset=desktop"
  | PresetMobile => EmptyString
  end.

Definition command (url : string) (preset : Preset) (tempFile : string) : string :=
  "lighthouse " +:+ DQ +:+ url +:+ DQ +:+ " " +:+ presetFlag preset
  +:+ " --output=json --output-path=" +:+ DQ +:+ tempFile +:+ DQ
  +:+ " --chrome-flags=" +:+ DQ +:+ "--headless --no-sandbox" +:+ DQ
  +:+ " --only-categories=performance,accessibility,best-practices,seo --quiet".

Definition runLighthouse (url : string) (preset : Preset) : M Report :=
  let* now := Date_now in
  let tempFile := tempFile preset now in
  let command := command url preset tempFile in
  tryCatch
    (let* _ := exec command in
     let* reportData := readFileSync tempFile in
     let* report := lift (parseReport h reportData) in
     let* _ := unlinkSync tempFile in
     ret report)
    (fun error =>
       let* _ :=
         tryCatch
           (let* found := existsSync tempFile in
            if found then unlinkSync tempFile else ret tt)
           (fun _ => ret tt) in
       throw error).

(** *** analyzeUrls *)

(** One [try]/[catch] block of the loop body: the metric set stored for
    one profile of one URL. *)
Definition analyzeProfile (url : string) (preset : Preset) : M MetricSet :=
  tryCatch
    (let* report := runLighthouse url preset in
     lift (extractMetrics report))
    (fun error => ret (failedMetrics error)).

(** The loop body. *)
Definition analyzeUrl (url : string) : M URLResult :=
  let* m := analyzeProfile url PresetMobile in
  let* d := analyzeProfile url PresetDesktop in
  ret {| url := url; desktop := d; mobile := m |}.

(** The loop: [results] is the array built so far. *)
Fixpoint analyzeLoop (urls : list string) (results : list URLResult)
  : M (list URLResult) :=
  match urls with
  | [] => ret results
  | url :: rest =>
      let* result := analyzeUrl url in
      analyzeLoop rest (results ++ [result])
  end.

Definition analyzeUrls (urls : list string) : M (list URLResult) :=
  analyzeLoop urls [].

(** *** Report emitters *)

(** [iso.replace(/[:.]/g, '-').slice(0, -5)]. *)
Definition fileStamp (iso : string) : string :=
  sliceEnd 5 (replaceColonDot iso).

(** [`${v ?? alt}`]. *)
Definition orElse (alt : string) (v : value) : string :=
  match v with
  | Undefined | Null => alt
  | Num x => NumberToString h x
  end.

Definition csvHeader : string :=
  "URL," +:+
  "Desktop Performance,Desktop Accessibility,Desktop Best Practices,Desktop SEO,Desktop FCP (ms),Desktop LCP (ms),Desktop TBT (ms),Desktop CLS,Desktop SI (ms)," +:+
  "Mobile Performance,Mobile Accessibility,Mobile Best Practices,Mobile SEO,Mobile FCP (ms),Mobile LCP (ms),Mobile TBT (ms),Mobile CLS,Mobile SI (ms)" +:+ LF.

Definition csvMetrics (m : MetricSet) : string :=
  orElse "ERROR" (performance m) +:+ "," +:+
  orElse "ERROR" (accessibility m) +:+ "," +:+
  orElse "ERROR" (bestPractices m) +:+ "," +:+
  orElse "ERROR" (seo m) +:+ "," +:+
  orElse "ERROR" (fcp m) +:+ "," +:+
  orElse "ERROR" (lcp m) +:+ "," +:+
  orElse "ERROR" (tbt m) +:+ "," +:+
  orElse "ERROR" (cls m) +:+ "," +:+
  orElse "ERROR" (si m).

Definition csvRow (result : URLResult) : string :=
  url result +:+ "," +:+
  csvMetrics (desktop result) +:+ "," +:+
  csvMetrics (mobile result).

Definition csvRows (results : list URLResult) : string :=
  join LF (List.map csvRow results).

Definition csvContent (results : list URLResult) : string :=
  csvHeader +:+ csvRows results.

Definition csvFilename (iso : string) : string :=
  "lighthouse_results_" +:+ fileStamp iso +:+ ".csv".

Definition saveResultsToCSV (results : list URLResult) : M string :=
  let csvContent := csvContent results in
  let* now := Date_now in
  let filename := csvFilename (toISOString h now) in
  let* _ := writeFileSync filename (TextFile csvContent) in
  ret filename.

Definition scoreText (v : value) : string := orElse "ERR" v.

(** The template before the table rows. *)
Definition htmlHead (date count : string) : string :=
  "<!DOCTYPE html>
<html>
<head>
  <meta charset="
  +:+ DQ
  +:+ "UTF-8"
  +:+ DQ
  +:+ ">
  <style>
    body {
      font-family: 'Segoe UI', Tahoma, Geneva, Verdana, sans-serif;
      background-color: #f5f5f5;
      margin: 0;
      padding: 20px;
    }
    .container {
      max-width: 1200px;
      margin: 0 auto;
      background-color: white;
      padding: 30px;
      border-radius: 8px;
      box-shadow: 0 2px 4px rgba(0,0,0,0.1);
    }
    h1 {
      color: #333;
      border-bottom: 3px solid #4CAF50;
      padding-bottom: 10px;
      margin-bottom: 20px;
    }
    .date {
      color: #666;
      font-size: 14px;
      margin-bottom: 20px;
    }
    table {
      width: 100%;
      border-collapse: collapse;
      margin-top: 20px;
      font-size: 13px;
    }
    th {
      background-color: #4CAF50;
      color: white;
      padding: 12px 8px;
      text-align: center;
      font-weight: 600;
      border: 1px solid #ddd;
    }
    td {
      padding: 10px 8px;
      border: 1px solid #ddd;
      text-align: center;
    }
    .url-cell {
      text-align: left;
      font-weight: 500;
      max-width: 300px;
      overflow: hidden;
      text-overflow: ellipsis;
      white-space: nowrap;
    }
    tr:nth-child(even) {
      background-color: #f9f9f9;
    }
    tr:hover {
      background-color: #f0f0f0;
    }
    .device-header {
      background-color: #2196F3;
      color: white;
    }
    .score {
      font-weight: 600;
      font-size: 14px;
    }
    .footer {
      margin-top: 30px;
      padding-top: 20px;
      border-top: 1px solid #ddd;
      text-align: center;
      color: #666;
      font-size: 12px;
    }
  </style>
</head>
<body>
  <div class="
  +:+ DQ
  +:+ "container"
  +:+ DQ
  +:+ ">
    <h1>📊 Lighthouse Analysis Report</h1>
    <div class="
  +:+ DQ
  +:+ "date"
  +:+ DQ
  +:+ ">Fecha: "
  +:+ date
  +:+ "</div>
    <div class="
  +:+ DQ
  +:+ "date"
  +:+ DQ
  +:+ ">URLs analizadas: "
  +:+ count
  +:+ "</div>
    
    <div style="
  +:+ DQ
  +:+ "background: #e3f2fd; border-left: 4px solid #2196F3; padding: 15px; margin: 20px 0; border-radius: 4px;"
  +:+ DQ
  +:+ ">
      <p style="
  +:+ DQ
  +:+ "margin: 0; color: #1976d2; font-weight: 600; font-size: 14px;"
  +:+ DQ
  +:+ ">
        📊 <strong>Dashboard Histórico:</strong> 
        <a href="
  +:+ DQ
  +:+ "https://analyzerbotreporter-crypto.github.io/HL/dashboard.html"
  +:+ DQ
  +:+ " 
           style="
  +:+ DQ
  +:+ "color: #1976d2; text-decoration: none; border-bottom: 2px solid #2196F3;"
  +:+ DQ
  +:+ ">
          Ver evolución de todas las métricas
        </a>
      </p>
    </div>
    
    <table>
      <thead>
        <tr>
          <th rowspan="
  +:+ DQ
  +:+ "2"
  +:+ DQ
  +:+ " style="
  +:+ DQ
  +:+ "vertical-align: middle;"
  +:+ DQ
  +:+ ">URL</th>
          <th colspan="
  +:+ DQ
  +:+ "4"
  +:+ DQ
  +:+ " class="
  +:+ DQ
  +:+ "device-header"
  +:+ DQ
  +:+ ">🖥️ DESKTOP</th>
          <th colspan="
  +:+ DQ
  +:+ "4"
  +:+ DQ
  +:+ " class="
  +:+ DQ
  +:+ "device-header"
  +:+ DQ
  +:+ ">📱 MOBILE</th>
        </tr>
        <tr>
          <th>Perf</th>
          <th>Acc</th>
          <th>BP</th>
          <th>SEO</th>
          <th>Perf</th>
          <th>Acc</th>
          <th>BP</th>
          <th>SEO</th>
        </tr>
      </thead>
      <tbody>
".

(** One table row. *)
Definition htmlRow (result : URLResult) : string :=
  "        <tr>
          <td class="
  +:+ DQ
  +:+ "url-cell"
  +:+ DQ
  +:+ " title="
  +:+ DQ
  +:+ url result
  +:+ DQ
  +:+ ">"
  +:+ url result
  +:+ "</td>
          <td class="
  +:+ DQ
  +:+ "score"
  +:+ DQ
  +:+ ">"
  +:+ getEmojiHTML (performance (desktop result))
  +:+ " "
  +:+ scoreText (performance (desktop result))
  +:+ "</td>
          <td class="
  +:+ DQ
  +:+ "score"
  +:+ DQ
  +:+ ">"
  +:+ getEmojiHTML (accessibility (desktop result))
  +:+ " "
  +:+ scoreText (accessibility (desktop result))
  +:+ "</td>
          <td class="
  +:+ DQ
  +:+ "score"
  +:+ DQ
  +:+ ">"
  +:+ getEmojiHTML (bestPractices (desktop result))
  +:+ " "
  +:+ scoreText (bestPractices (desktop result))
  +:+ "</td>
          <td class="
  +:+ DQ
  +:+ "score"
  +:+ DQ
  +:+ ">"
  +:+ getEmojiHTML (seo (desktop result))
  +:+ " "
  +:+ scoreText (seo (desktop result))
  +:+ "</td>
          <td class="
  +:+ DQ
  +:+ "score"
  +:+ DQ
  +:+ ">"
  +:+ getEmojiHTML (performance (mobile result))
  +:+ " "
  +:+ scoreText (performance (mobile result))
  +:+ "</td>
          <td class="
  +:+ DQ
  +:+ "score"
  +:+ DQ
  +:+ ">"
  +:+ getEmojiHTML (accessibility (mobile result))
  +:+ " "
  +:+ scoreText (accessibility (mobile result))
  +:+ "</td>
          <td class="
  +:+ DQ
  +:+ "score"
  +:+ DQ
  +:+ ">"
  +:+ getEmojiHTML (bestPractices (mobile result))
  +:+ " "
  +:+ scoreText (bestPractices (mobile result))
  +:+ "</td>
          <td class="
  +:+ DQ
  +:+ "score"
  +:+ DQ
  +:+ ">"
  +:+ getEmojiHTML (seo (mobile result))
  +:+ " "
  +:+ scoreText (seo (mobile result))
  +:+ "</td>
        </tr>
".

(** The template after the table rows. *)
Definition htmlFoot : string :=
  "      </tbody>
    </table>
    
    <div class="
  +:+ DQ
  +:+ "footer"
  +:+ DQ
  +:+ ">
      <p>🟢 ≥90 | 🟡 50-89 | 🔴 <50</p>
      <p>Generado automáticamente por Lighthouse Analyzer</p>
      <p style="
  +:+ DQ
  +:+ "margin-top: 20px; padding-top: 15px; border-top: 1px solid #ddd; font-size: 13px; color: #495057;"
  +:+ DQ
  +:+ ">
        <strong>Leyenda de métricas:</strong><br>
        <span style="
  +:+ DQ
  +:+ "display: inline-block; margin-right: 15px;"
  +:+ DQ
  +:+ ">⚡ <strong>Perf</strong> = Performance</span>
        <span style="
  +:+ DQ
  +:+ "display: inline-block; margin-right: 15px;"
  +:+ DQ
  +:+ ">♿ <strong>Acc</strong> = Accessibility</span>
        <span style="
  +:+ DQ
  +:+ "display: inline-block; margin-right: 15px;"
  +:+ DQ
  +:+ ">✨ <strong>BP</strong> = Best Practices</span>
        <span style="
  +:+ DQ
  +:+ "display: inline-block;"
  +:+ DQ
  +:+ ">🔍 <strong>SEO</strong> = Search Engine Optimization</span>
      </p>
    </div>
    
  </div>
</body>
</html>".


Definition htmlContent (date : string) (results : list URLResult) : string :=
  htmlHead date (decimal (Z.of_nat (length results)))
  +:+ String.concat EmptyString (List.map htmlRow results)
  +:+ htmlFoot.

Definition htmlFilename (iso : string) : string :=
  "lighthouse_email_" +:+ fileStamp iso +:+ ".html".

Definition generateSimplifiedHTMLEmail (results : list URLResult) : M string :=
  let* now := Date_now in
  let date := toLocaleString h now in
  let html := htmlContent date results in
  let* now' := Date_now in
  let filename := htmlFilename (toISOString h now') in
  let* _ := writeFileSync filename (TextFile html) in
  ret filename.

Definition historyDir : string := "historical-data".

(** [path.join(historyDir, `lighthouse_${...}.json`)] on a POSIX host. *)
Definition historyFilename (iso : string) : string :=
  historyDir +:+ "/" +:+ "lighthouse_" +:+ fileStamp iso +:+ ".json".

Definition historicalData (timestamp date : string) (results : list URLResult)
  : jsval :=
  JObject [("timestamp", JString timestamp);
           ("date", JString date);
           ("results", resultsJS results)].

Definition saveHistoricalData (results : list URLResult) : M string :=
  let* found := existsSync historyDir in
  let* _ := (if found then ret tt else mkdirSync historyDir) in
  let* now := Date_now in
  let timestamp := toISOString h now in
  let filename := historyFilename timestamp in
  let* now' := Date_now in
  let historicalData := historicalData timestamp (toLocaleString h now') results in
  match JSON_stringify historicalData with
  | Some document =>
      let* _ := writeFileSync filename (JSONFile document) in
      ret filename
  | None =>
      throw (mkError "The data argument must be of type string or an instance of Buffer, TypedArray, or DataView. Received undefined")
  end.

(** *** The script *)

(** [process.env.LIGHTHOUSE_URLS || '']. *)
Definition urlsFromEnv (env : option string) : string :=
  match env with
  | Some s => s
  | None => EmptyString
  end.

Definition urls (env : option string) : list string :=
  List.filter (fun url => negb (Nat.eqb (String.length url) 0))
    (List.map trim (split "," (urlsFromEnv env))).

(** The three emitters, in the order of the [then] callback. *)
Definition emitAll (results : list URLResult) : M unit :=
  let* csvFilename := saveResultsToCSV results in
  let* htmlFilename := generateSimplifiedHTMLEmail results in
  let* historyFilename := saveHistoricalData results in
  ret tt.

(** The whole script; the result is the exit code of the process. *)
Definition main (env : option string) (s : State) : Z * State :=
  if String.eqb (urlsFromEnv env) EmptyString
     || String.eqb (trim (urlsFromEnv env)) EmptyString
  then (1, s)
  else if Nat.eqb (length (urls env)) 0
  then (1, s)
  else
    match (let* results := analyzeUrls (urls env) in emitAll results) s with
    | (Normal _, s') => (0, s')
    | (Throw _, s') => (1, s')
    end.

End Program.

Arguments world {h} s.
Arguments trace {h} s.

(** ** A scripted host and sample data

    The host below is used to run the program on concrete inputs.  Its
    world holds a clock that advances by [tick] milliseconds at every
    reading and a script: the outcome of each successive run of the audit
    program, either the text it leaves in its output file or a failure.
    All file-system calls succeed. *)

Module Sample.

Record TestWorld : Type := {
  now : Z;
  tick : Z;
  script : list (option string);
  output : string
}.

Definition ratio (n d : Z) : number := div (ofZ n) (ofZ d).

Definition entry {A} (k : string) (a : A) (m : gmap string A) : gmap string A :=
  <[k := a]> m.

Definition sampleCategories : gmap string Category :=
  entry "performance" {| score := Num (ratio 98 100) |}
    (entry "accessibility" {| score := Num (ofZ 1) |}
       (entry "best-practices" {| score := Num (ratio 92 100) |}
          (entry "seo" {| score := Num (ratio 9 10) |} ∅))).

(** A report with ordinary values. *)
Definition reportGood : Report := {|
  categories := sampleCategories;
  audits :=
    entry "first-contentful-paint" {| numericValue := Num (ratio 8124 10) |}
      (entry "largest-contentful-paint" {| numericValue := Num (ratio 12037 10) |}
         (entry "total-blocking-time" {| numericValue := Num (ratio 355 10) |}
            (entry "cumulative-layout-shift" {| numericValue := Num (ratio 12 1000) |}
               (entry "speed-index" {| numericValue := Num (ratio 9505 10) |} ∅))))
|}.

(** A page that never blocks and never shifts: total blocking time 0 ms and
    cumulative layout shift 0; the first paint takes 0.3 ms. *)
Definition reportZero : Report := {|
  categories := sampleCategories;
  audits :=
    entry "first-contentful-paint" {| numericValue := Num (ratio 3 10) |}
      (entry "largest-contentful-paint" {| numericValue := Num (ratio 12037 10) |}
         (entry "total-blocking-time" {| numericValue := Num (ofZ 0) |}
            (entry "cumulative-layout-shift" {| numericValue := Num (ofZ 0) |}
               (entry "speed-index" {| numericValue := Num (ratio 9505 10) |} ∅))))
|}.

(** A report whose performance category has no [score] property. *)
Definition reportNoScore : Report := {|
  categories := entry "performance" {| score := Undefined |} sampleCategories;
  audits := audits reportGood
|}.

(** A report whose performance category has a [null] score. *)
Definition reportNullScore : Report := {|
  categories := entry "performance" {| score := Null |} sampleCategories;
  audits := audits reportGood
|}.

Definition parse (text : string) : Completion Report :=
  if String.eqb text "good" then Normal reportGood
  else if String.eqb text "zero" then Normal reportZero
  else if String.eqb text "no-score" then Normal reportNoScore
  else Throw (mkError "Unexpected end of JSON input").

Definition pad (width : nat) (n : Z) : string :=
  let d := decimal n in
  String.concat EmptyString (replicate (width - String.length d) "0") +:+ d.

(** Days since the epoch to year, month and day. *)
Definition civil (days : Z) : Z * Z * Z :=
  let z := days + 719468 in
  let era := z / 146097 in
  let doe := z - era * 146097 in
  let yoe := (doe - doe / 1460 + doe / 36524 - doe / 146096) / 365 in
  let doy := doe - (365 * yoe + yoe / 4 - yoe / 100) in
  let mp := (5 * doy + 2) / 153 in
  let d := doy - (153 * mp + 2) / 5 + 1 in
  let m := if mp <? 10 then mp + 3 else mp - 9 in
  (if m <=? 2 then yoe + era * 400 + 1 else yoe + era * 400, m, d).

Definition iso (ms : Z) : string :=
  let '(y, m, d) := civil (ms / 86400000) in
  let t := ms mod 86400000 in
  pad 4 y +:+ "-" +:+ pad 2 m +:+ "-" +:+ pad 2 d +:+ "T"
  +:+ pad 2 (t / 3600000) +:+ ":" +:+ pad 2 (t / 60000 mod 60) +:+ ":"
  +:+ pad 2 (t / 1000 mod 60) +:+ "." +:+ pad 3 (t mod 1000) +:+ "Z".

(** A stand-in for the Spanish long date: the date and the minute. *)
Definition localeDate (ms : Z) : string :=
  String.substring 0 16 (iso ms).

(** The digits of [r / 2^k] after the decimal point, for [r < 2^k]. *)
Fixpoint fraction (fuel : nat) (r k : Z) : string :=
  match fuel with
  | O => EmptyString
  | S n =>
      if r =? 0 then EmptyString
      else decimal (10 * r / 2 ^ k) +:+ fraction n (10 * r mod 2 ^ k) k
  end.

(** Integers are printed in decimal and other numbers in full; the runtime
    prints the shortest numeral that reads back as the number. *)
Definition showNumber (x : number) : string :=
  match x with
  | S754_zero _ => "0"
  | S754_nan => "NaN"
  | S754_infinity s => if s then "-Infinity" else "Infinity"
  | S754_finite s m e =>
      (if s then "-" else EmptyString)
      +:+ (if 0 <=? e then decimal (Zpos m * 2 ^ e)
           else decimal (Zpos m / 2 ^ (- e))
                +:+ (if Zpos m mod 2 ^ (- e) =? 0 then EmptyString
                     else "." +:+ fraction (Z.to_nat (- e)) (Zpos m mod 2 ^ (- e)) (- e)))
  end.

Definition advance (w : TestWorld) : TestWorld :=
  {| now := now w + tick w; tick := tick w; script := script w; output := output w |}.

Definition run (w : TestWorld) : Completion unit * TestWorld :=
  match script w with
  | Some text :: rest =>
      (Normal tt, {| now := now w; tick := tick w; script := rest; output := text |})
  | None :: rest =>
      (Throw (mkError "Command failed: lighthouse"),
       {| now := now w; tick := tick w; script := rest; output := output w |})
  | [] => (Throw (mkError "Command failed: lighthouse"), w)
  end.

Definition host : Host := {|
  World := TestWorld;
  clock := fun w => (now w, advance w);
  execAsync := fun _ w => run w;
  fs_readFileSync := fun _ w => (Normal (output w), w);
  parseReport := parse;
  fs_unlinkSync := fun _ w => (Normal tt, w);
  fs_existsSync := fun _ w => (false, w);
  fs_mkdirSync := fun _ w => (Normal tt, w);
  fs_writeFileSync := fun _ _ w => (Normal tt, w);
  toISOString := iso;
  toLocaleString := localeDate;
  NumberToString := showNumber
|}.

(** The same host with a clock that always shows 2025-01-01T00:00:00.000Z. *)
Definition stoppedHost : Host := {|
  World := TestWorld;
  clock := fun w => (1735689600000, w);
  execAsync := fun _ w => run w;
  fs_readFileSync := fun _ w => (Normal (output w), w);
  parseReport := parse;
  fs_unlinkSync := fun _ w => (Normal tt, w);
  fs_existsSync := fun _ w => (false, w);
  fs_mkdirSync := fun _ w => (Normal tt, w);
  fs_writeFileSync := fun _ _ w => (Normal tt, w);
  toISOString := iso;
  toLocaleString := localeDate;
  NumberToString := showNumber
|}.

(** The world at 2025-01-01T00:00:00.000Z. *)
Definition start (tick : Z) (script : list (option string)) : State host :=
  {| world := ({| now := 1735689600000; tick := tick; script := script;
                  output := EmptyString |} : World host);
     trace := [] |}.

Definition stoppedStart : State stoppedHost :=
  {| world := ({| now := 0; tick := 0; script := []; output := EmptyString |}
               : World stoppedHost);
     trace := [] |}.

(** A URL list written one URL per line, without commas. *)
Definition urlPerLine : string :=
  "https://a.example" +:+ LF +:+ "https://b.example".

(** The batch result of a run on that list when the audit program fails. *)
Definition urlPerLineBatch : list URLResult :=
  [{| url := urlPerLine;
      desktop := failedMetrics (mkError "Command failed: lighthouse");
      mobile := failedMetrics (mkError "Command failed: lighthouse") |}].

(** The batch result of a run on two URLs in which the mobile audit of the
    second URL fails. *)
Definition twoUrlBatch : list URLResult :=
  match fst (analyzeUrls host ["https://a.example"; "https://b.example"]
               (start 1000 [Some "good"; Some "good"; None; Some "zero"])) with
  | Normal results => results
  | Throw _ => []
  end.

(** The batch result of a run on one URL whose reports have a performance
    category without a score. *)
Definition noScoreBatch : list URLResult :=
  match fst (analyzeUrls host ["https://a.example"]
               (start 1000 [Some "no-score"; Some "no-score"])) with
  | Normal results => results
  | Throw _ => []
  end.

End Sample.

(** ** Vocabulary of the statements *)

(** The category entries and the audit entries [extractMetrics] reads. *)
Definition scoreNames : list string :=
  ["performance"; "accessibility"; "best-practices"; "seo"].

Definition timingNames : list string :=
  ["first-contentful-paint"; "largest-contentful-paint"; "total-blocking-time";
   "cumulative-layout-shift"; "speed-index"].

(** The field of a metric set fed by a category entry or an audit entry. *)
Definition scoreOf (name : string) (m : MetricSet) : value :=
  if String.eqb name "performance" then performance m
  else if String.eqb name "accessibility" then accessibility m
  else if String.eqb name "best-practices" then bestPractices m
  else seo m.

Definition timingOf (name : string) (m : MetricSet) : value :=
  if String.eqb name "first-contentful-paint" then fcp m
  else if String.eqb name "largest-contentful-paint" then lcp m
  else if String.eqb name "total-blocking-time" then tbt m
  else if String.eqb name "cumulative-layout-shift" then cls m
  else si m.

(** [v] is a number equal ([===]) to an integer of the range. *)
Definition integerBetween (lo hi : Z) (v : value) : Prop :=
  exists x n, v = Num x /\ lo <= n <= hi /\ strictEq x (ofZ n) = true.

(** [v] is a number [x] with [0 <= x] and [x <= 1]. *)
Definition inUnitInterval (v : value) : Prop :=
  exists x, v = Num x /\ wellFormed x = true /\
            ge x (ofZ 0) = true /\ ge (ofZ 1) x = true.

(** The nine metric fields of a metric set. *)
Definition metricFields (m : MetricSet) : list value :=
  [performance m; accessibility m; bestPractices m; seo m;
   fcp m; lcp m; tbt m; cls m; si m].

Definition allAbsent (m : MetricSet) : Prop :=
  Forall (fun v => v = Null) (metricFields m).

(** What the loop body stores for the outcome of one run of
    [runLighthouse]: the extracted metric set, or the all-null metric set
    with the message of the error thrown by the run or by the extraction. *)
Definition settle (outcome : Completion Report) : MetricSet :=
  match outcome with
  | Throw e => failedMetrics e
  | Normal report =>
      match extractMetrics report with
      | Normal m => m
      | Throw e => failedMetrics e
      end
  end.

Definition otherPreset (preset : Preset) : Preset :=
  match preset with
  | PresetMobile => PresetDesktop
  | PresetDesktop => PresetMobile
  end.

Definition metricsFor (preset : Preset) (r : URLResult) : MetricSet :=
  match preset with
  | PresetMobile => mobile r
  | PresetDesktop => desktop r
  end.

(** The state in which the loop reaches the URL of index [i]. *)
Definition stateBefore (h : Host) (urls : list string) (i : nat) (s : State h)
  : State h :=
  snd (analyzeUrls h (take i urls) s).

(** The state in which a profile of [url] is analysed, when the loop body
    starts in [s]: mobile runs first, desktop after it. *)
Definition invocationState (h : Host) (url : string) (preset : Preset) (s : State h)
  : State h :=
  match preset with
  | PresetMobile => s
  | PresetDesktop => snd (runLighthouse h url PresetMobile s)
  end.

(** The outcome of the run of [runLighthouse] for a profile of [url]. *)
Definition invocation (h : Host) (url : string) (preset : Preset) (s : State h)
  : Completion Report :=
  fst (runLighthouse h url preset (invocationState h url preset s)).

(** The cells of a CSV row are what lies between its commas. *)
Definition columns (row : string) : list string := split "," row.

(** A text without comma and without line feed. *)
Definition plain (s : string) : bool :=
  negb (occurs "," s) && negb (occurs (ascii_of_nat 10) s).

(** The nine cells a metric set is rendered to. *)
Definition csvCells (h : Host) (m : MetricSet) : list string :=
  List.map (orElse h "ERROR") (metricFields m).

(** No URL and no rendered metric of the batch contains a comma or a line
    feed. *)
Definition csvSafe (h : Host) (results : list URLResult) : bool :=
  forallb (fun r => plain (url r)
                    && forallb plain (csvCells h (desktop r))
                    && forallb plain (csvCells h (mobile r))) results.

(** The header row, without the line feed that ends it. *)
Definition csvHeaderLine : string := sliceEnd 1 csvHeader.

(** A metric value that a JSON document can hold as it is: [null], or a
    finite number other than negative zero. *)
Definition archivable (v : value) : bool :=
  match v with
  | Null => true
  | Num (S754_finite _ _ _) => true
  | Num (S754_zero s) => negb s
  | _ => false
  end.

Definition archivableBatch (results : list URLResult) : bool :=
  forallb (fun r => forallb archivable (metricFields (desktop r))
                    && forallb archivable (metricFields (mobile r))) results.

(** The files a sequence of calls writes: path and content, in order. *)
Definition artifacts (events : list Event) : list (string * FileContent) :=
  omap (fun ev => match ev with
                  | CallWriteFile path content => Some (path, content)
                  | _ => None
                  end) events.

(** The commands a sequence of calls executes. *)
Definition executions (events : list Event) : list string :=
  omap (fun ev => match ev with
                  | CallExec command => Some command
                  | _ => None
                  end) events.

(** The clock shows the instant [t] whenever it is read. *)
Definition frozenClock (h : Host) (t : Z) : Prop :=
  forall w : World h, fst (clock h w) = t.

(** The source numeric value is one the conditional of a timing field takes
    for absent: the entry or the property is missing, or the value is
    [null], a zero or NaN. *)
Definition takenForAbsent (v : value) : Prop :=
  v = Undefined \/ v = Null \/
  exists x, v = Num x /\ (x = S754_nan \/ exists s, x = S754_zero s).

(** The two commands the loop body runs for a URL, with the clock readings
    that name their output files. *)
Definition auditCommands (u : string) (times : Z * Z) : list string :=
  [command u PresetMobile (tempFile PresetMobile (fst times));
   command u PresetDesktop (tempFile PresetDesktop (snd times))].

(** The two shapes of a metric set that the loop records: the set of a
    failed profile (nine [null] fields and an error message), or an
    extracted set (no error message, four scores that are numbers, and
    timing fields that are numbers or [null]). *)
Definition failedShape (m : MetricSet) : Prop :=
  allAbsent m /\ exists msg, error m = Some msg.

Definition extractedShape (m : MetricSet) : Prop :=
  error m = None /\
  (forall name, In name scoreNames -> exists x, scoreOf name m = Num x) /\
  (forall name, In name timingNames -> timingOf name m <> Undefined).

(** What a metric value becomes when it is written to the archive and read
    back: NaN and the infinities become [null], negative zero becomes
    zero, every other value is unchanged. *)
Definition readBackValue (v : value) : value :=
  match v with
  | Num (S754_zero _) => Num (S754_zero false)
  | Num (S754_infinity _) | Num S754_nan => Null
  | _ => v
  end.

Definition readBackMetrics (m : MetricSet) : MetricSet := {|
  performance := readBackValue (performance m);
  accessibility := readBackValue (accessibility m);
  bestPractices := readBackValue (bestPractices m);
  seo := readBackValue (seo m);
  fcp := readBackValue (fcp m);
  lcp := readBackValue (lcp m);
  tbt := readBackValue (tbt m);
  cls := readBackValue (cls m);
  si := readBackValue (si m);
  error := error m
|}.

Definition readBackResult (r : URLResult) : URLResult := {|
  url := url r;
  desktop := readBackMetrics (desktop r);
  mobile := readBackMetrics (mobile r)
|}.

(** No metric field is [undefined]. *)
Definition defined (m : MetricSet) : Prop :=
  List.Forall (fun v => v <> Undefined) (metricFields m).

(** The number a decimal numeral denotes, read after the digits [init]. *)
Fixpoint readDecimal (init : N) (s : string) : N :=
  match s with
  | EmptyString => init
  | String c r => readDecimal (init * 10 + (code c - 48)) r
  end.

(** * Properties *)

(** ** Rounding in binary64 *)

Lemma iter_pos_nat {A} (f : A -> A) (p : positive) (x : A) :
  SpecFloat.iter_pos f p x = Nat.iter (Pos.to_nat p) f x.
Proof.
  revert x. induction p as [p IH | p IH |]; intros x.
  - rewrite Pos2Nat.inj_xI. cbn [SpecFloat.iter_pos]. rewrite !IH.
    replace (S (2 * Pos.to_nat p)) with (Pos.to_nat p + S (Pos.to_nat p))%nat by lia.
    rewrite Nat.iter_add, Nat.iter_succ_r. reflexivity.
  - rewrite Pos2Nat.inj_xO. cbn [SpecFloat.iter_pos]. rewrite !IH.
    replace (2 * Pos.to_nat p)%nat with (Pos.to_nat p + Pos.to_nat p)%nat by lia.
    rewrite Nat.iter_add. reflexivity.
  - reflexivity.
Qed.

Lemma shr_1_m (mrs : shr_record) :
  0 <= shr_m mrs -> shr_m (shr_1 mrs) = shr_m mrs / 2.
Proof.
  destruct mrs as [m r s]; simpl. intros Hm.
  destruct m as [| p | p]; simpl; [reflexivity | | lia].
  destruct p as [p | p |]; simpl.
  - rewrite Pos2Z.inj_xI. apply Z.div_unique with (r := 1); lia.
  - rewrite Pos2Z.inj_xO. apply Z.div_unique with (r := 0); lia.
  - reflexivity.
Qed.

Lemma shr_1_r (mrs : shr_record) :
  0 <= shr_m mrs -> shr_r (shr_1 mrs) = Z.odd (shr_m mrs).
Proof.
  destruct mrs as [m r s]; simpl. intros Hm.
  destruct m as [| p | p]; simpl; [reflexivity | | lia].
  destruct p; reflexivity.
Qed.

Lemma shr_1_s (mrs : shr_record) :
  shr_s (shr_1 mrs) = shr_r mrs || shr_s mrs.
Proof.
  destruct mrs as [m r s]; simpl.
  destruct m as [| p | p]; simpl; try reflexivity; destruct p; reflexivity.
Qed.

Lemma shr_iter (m0 : Z) (n : nat) :
  0 <= m0 ->
  let mrs := Nat.iter n shr_1 (Build_shr_record m0 false false) in
  shr_m mrs = m0 / 2 ^ Z.of_nat n /\
  (m0 mod 2 ^ Z.of_nat n = 0 -> shr_r mrs = false /\ shr_s mrs = false).
Proof.
  intros Hm0. induction n as [| n IH]; simpl.
  - split; [symmetry; apply Z.div_1_r | auto].
  - destruct IH as [IHm IHx].
    set (mrs := Nat.iter n shr_1 _) in *.
    assert (Hq : 0 <= shr_m mrs) by (rewrite IHm; apply Z.div_pos; lia).
    assert (Hpow : 2 ^ Z.of_nat (S n) = 2 ^ Z.of_nat n * 2)
      by (rewrite Nat2Z.inj_succ, Z.pow_succ_r; lia).
    split.
    + rewrite shr_1_m, IHm, Hpow by assumption.
      rewrite Z.div_div by lia. reflexivity.
    + intros Hmod. rewrite Hpow in Hmod.
      assert (Hp : 0 < 2 ^ Z.of_nat n) by (apply Z.pow_pos_nonneg; lia).
      apply Z.mod_divide in Hmod; [| lia]. destruct Hmod as [c Hc].
      assert (Hmod' : m0 mod 2 ^ Z.of_nat n = 0).
      { apply Z.mod_divide; [lia |]. exists (c * 2). lia. }
      destruct (IHx Hmod') as [Hr Hs].
      rewrite shr_1_r, shr_1_s, Hr, Hs, IHm by assumption. split; [| reflexivity].
      replace m0 with ((c * 2) * 2 ^ Z.of_nat n) by lia.
      rewrite Z.div_mul by lia.
      rewrite Z.mul_comm, Z.odd_mul. reflexivity.
Qed.

Lemma digits2_pos_bounds (p : positive) :
  2 ^ (Zpos (digits2_pos p) - 1) <= Zpos p < 2 ^ Zpos (digits2_pos p).
Proof.
  induction p as [p IH | p IH |]; cbn [digits2_pos].
  - rewrite Pos2Z.inj_succ. change (Zpos p~1) with (2 * Zpos p + 1).
    replace (Z.succ (Zpos (digits2_pos p)) - 1) with (Z.succ (Zpos (digits2_pos p) - 1)) by lia.
    rewrite !Z.pow_succ_r by lia. lia.
  - rewrite Pos2Z.inj_succ. change (Zpos p~0) with (2 * Zpos p).
    replace (Z.succ (Zpos (digits2_pos p)) - 1) with (Z.succ (Zpos (digits2_pos p) - 1)) by lia.
    rewrite !Z.pow_succ_r by lia. lia.
  - simpl. lia.
Qed.

(** What [shr_fexp] computes from an exact non-negative mantissa. *)
Lemma shr_fexp_exact (m e : Z) :
  0 <= m ->
  exists mrs e',
    shr_fexp prec emax m e loc_Exact = (mrs, e') /\
    e' = Z.max e (fexp prec emax (Zdigits2 m + e)) /\
    shr_m mrs = m / 2 ^ (e' - e) /\
    (m mod 2 ^ (e' - e) = 0 -> loc_of_shr_record mrs = loc_Exact).
Proof.
  intros Hm. unfold shr_fexp, shr. cbn [shr_record_of_loc].
  destruct (fexp prec emax (Zdigits2 m + e) - e) as [| k | k] eqn:Hk.
  - eexists _, _. split; [reflexivity |].
    assert (He : Z.max e (fexp prec emax (Zdigits2 m + e)) = e) by lia.
    rewrite He, Z.sub_diag. cbn [shr_m]. rewrite Z.div_1_r. auto.
  - eexists _, _. split; [reflexivity |].
    assert (He : Z.max e (fexp prec emax (Zdigits2 m + e)) = e + Zpos k) by lia.
    rewrite He. replace (e + Zpos k - e) with (Zpos k) by lia.
    rewrite iter_pos_nat.
    pose proof (shr_iter m (Pos.to_nat k) Hm) as [H1 H2].
    rewrite positive_nat_Z in H1, H2.
    split; [reflexivity |]. split; [exact H1 |].
    intros Hmod. destruct (H2 Hmod) as [Hr Hs].
    destruct (Nat.iter _ _ _) as [m' r' s']. cbn in Hr, Hs. subst. reflexivity.
  - eexists _, _. split; [reflexivity |].
    assert (He : Z.max e (fexp prec emax (Zdigits2 m + e)) = e) by lia.
    rewrite He, Z.sub_diag. cbn [shr_m]. rewrite Z.div_1_r. auto.
Qed.

Lemma round_nearest_even_bounds (m : Z) (l : location) :
  m <= round_nearest_even m l <= m + 1 /\
  (l = loc_Exact -> round_nearest_even m l = m).
Proof.
  destruct l as [| c]; cbn; [lia |].
  split; [| discriminate].
  destruct c; try destruct (Z.even m); lia.
Qed.

(** The exponent chosen for a mantissa of value at most [2^7]. *)
Lemma fexp_small (m e : Z) :
  0 <= m -> e <= -46 -> m <= 100 * 2 ^ (- e) ->
  Z.max e (fexp prec emax (Zdigits2 m + e)) <= -46.
Proof.
  intros Hm He Hb.
  assert (Hd : Zdigits2 m + e <= 7).
  { destruct m as [| p | p]; cbn [Zdigits2]; [lia | | lia].
    pose proof (digits2_pos_bounds p) as [Hlo _].
    assert (Hlt : 2 ^ (Zpos (digits2_pos p) - 1) < 2 ^ (7 - e)).
    { replace (7 - e) with (7 + - e) by lia.
      rewrite Z.pow_add_r by lia.
      assert (0 < 2 ^ (- e)) by (apply Z.pow_pos_nonneg; lia).
      change (2 ^ 7) with 128. lia. }
    apply Z.pow_lt_mono_r_iff in Hlt; lia. }
  unfold fexp, emin, prec, emax. lia.
Qed.

(** Dividing a mantissa bounded at exponent [e] gives one bounded at the
    larger exponent [e']; rounding up stays within the bound because the
    bound is itself a multiple of the divisor. *)
Lemma bound_shift (m e e' q : Z) :
  0 <= m -> e <= e' -> e' <= 0 -> m <= 100 * 2 ^ (- e) ->
  m / 2 ^ (e' - e) <= q <= m / 2 ^ (e' - e) + 1 ->
  (m mod 2 ^ (e' - e) = 0 -> q = m / 2 ^ (e' - e)) ->
  0 <= q <= 100 * 2 ^ (- e').
Proof.
  intros Hm He He' Hb Hq Hx.
  set (k := e' - e) in *.
  assert (Hk : 0 < 2 ^ k) by (apply Z.pow_pos_nonneg; lia).
  assert (Hsplit : 2 ^ (- e) = 2 ^ (- e') * 2 ^ k).
  { rewrite <- Z.pow_add_r by lia. f_equal. lia. }
  set (K := 100 * 2 ^ (- e')).
  assert (HK : m <= K * 2 ^ k) by (unfold K; lia).
  assert (Hdiv : m / 2 ^ k <= K).
  { apply Z.div_le_upper_bound; lia. }
  assert (Hnn : 0 <= m / 2 ^ k) by (apply Z.div_pos; lia).
  split; [lia |].
  destruct (Z.eq_dec (m / 2 ^ k) K) as [Heq | Hne]; [| lia].
  assert (Hmod : m mod 2 ^ k = 0).
  { pose proof (Z.div_mod m (2 ^ k) ltac:(lia)) as Hdm.
    pose proof (Z.mod_pos_bound m (2 ^ k) Hk). nia. }
  rewrite (Hx Hmod). lia.
Qed.

(** Rounding an exact non-negative value of at most 100 gives a zero or a
    positive number of at most 100. *)
Lemma binary_round_aux_bound (m e : Z) :
  0 <= m -> e <= -46 -> m <= 100 * 2 ^ (- e) ->
  binary_round_aux prec emax false m e loc_Exact = S754_zero false \/
  exists p e',
    binary_round_aux prec emax false m e loc_Exact = S754_finite false p e' /\
    e' <= -46 /\ Zpos p <= 100 * 2 ^ (- e').
Proof.
  intros Hm He Hb. unfold binary_round_aux.
  destruct (shr_fexp_exact m e Hm) as (mrs1 & e1 & Hs1 & He1 & Hm1 & Hx1).
  rewrite Hs1.
  pose proof (fexp_small m e Hm He Hb) as Hsmall1. rewrite <- He1 in Hsmall1.
  set (m1 := round_nearest_even (shr_m mrs1) (loc_of_shr_record mrs1)).
  pose proof (round_nearest_even_bounds (shr_m mrs1) (loc_of_shr_record mrs1))
    as [Hr1 Hr1x]. fold m1 in Hr1, Hr1x.
  assert (Hb1 : 0 <= m1 <= 100 * 2 ^ (- e1)).
  { apply (bound_shift m e e1 m1); try lia.
    intros Hmod. rewrite Hr1x by auto. exact Hm1. }
  destruct Hb1 as [Hm1' Hb1].
  destruct (shr_fexp_exact m1 e1 Hm1') as (mrs2 & e2 & Hs2 & He2 & Hm2 & _).
  rewrite Hs2.
  pose proof (fexp_small m1 e1 Hm1' Hsmall1 Hb1) as Hsmall2. rewrite <- He2 in Hsmall2.
  assert (Hb2 : 0 <= shr_m mrs2 <= 100 * 2 ^ (- e2)).
  { apply (bound_shift m1 e1 e2 (shr_m mrs2)); try lia. }
  destruct (shr_m mrs2) as [| p | p]; [left; reflexivity | | lia].
  right. exists p, e2.
  assert (Hle : (e2 <=? emax - prec) = true) by (apply Z.leb_le; unfold emax, prec; lia).
  rewrite Hle. split; [reflexivity |]. split; [assumption | lia].
Qed.

(** A well-formed number between 0 and 1 is a zero, or a positive number
    whose mantissa is at most [2^(-e)]. *)
Lemma unit_interval_shape (x : number) :
  wellFormed x = true -> ge x (ofZ 0) = true -> ge (ofZ 1) x = true ->
  (exists s, x = S754_zero s) \/
  exists m e, x = S754_finite false m e /\ e <= -52 /\ Zpos m <= 2 ^ (- e).
Proof.
  intros Hwf H0 H1. destruct x as [s | s | | s m e].
  - left. exists s. reflexivity.
  - destruct s; discriminate.
  - discriminate.
  - right. exists m, e.
    destruct s; [discriminate |].
    split; [reflexivity |].
    assert (Hone : ofZ 1 = S754_finite false 4503599627370496 (-52)) by reflexivity.
    rewrite Hone in H1. unfold ge, SFleb, SFcompare in H1.
    unfold wellFormed, valid_binary, bounded, canonical_mantissa in Hwf.
    apply andb_prop in Hwf as [Hcan _]. apply Z.eqb_eq in Hcan.
    pose proof (digits2_pos_bounds m) as [Hlo Hhi].
    destruct (e ?= -52) eqn:Hcmp; [| | discriminate].
    + apply Z.compare_eq in Hcmp. subst e. split; [reflexivity |].
      change (2 ^ (- -52)) with 4503599627370496.
      destruct (Pos.compare_cont Eq m 4503599627370496) eqn:Hc; try discriminate.
      * apply Pos.compare_eq in Hc. subst m. apply Z.le_refl.
      * apply Pos.compare_lt_iff in Hc. apply Z.lt_le_incl.
        apply Pos2Z.pos_lt_pos. exact Hc.
    + assert (Hlt : e < -52) by (apply Z.compare_lt_iff; exact Hcmp).
      split; [lia |].
      assert (Hd : Zpos (digits2_pos m) <= 53).
      { unfold fexp, emin, prec, emax in Hcan. lia. }
      assert (Hp : 2 ^ Zpos (digits2_pos m) <= 2 ^ (- e))
        by (apply Z.pow_le_mono_r; lia).
      lia.
Qed.

Lemma ofZ_100 : ofZ 100 = S754_finite false 7036874417766400 (-46).
Proof. reflexivity. Qed.

(** The product of a number between 0 and 1 with 100. *)
Lemma mul_100_bound (x : number) :
  wellFormed x = true -> ge x (ofZ 0) = true -> ge (ofZ 1) x = true ->
  (exists s, mul x (ofZ 100) = S754_zero s) \/
  exists p e,
    mul x (ofZ 100) = S754_finite false p e /\
    e <= -46 /\ Zpos p <= 100 * 2 ^ (- e).
Proof.
  intros Hwf H0 H1.
  destruct (unit_interval_shape x Hwf H0 H1) as [[s ->] | (m & e & -> & He & Hm)].
  - left. exists s. rewrite ofZ_100. cbn. destruct s; reflexivity.
  - rewrite ofZ_100. unfold mul, SFmul. cbn [xorb].
    rewrite Pos2Z.inj_mul.
    destruct (binary_round_aux_bound (Zpos m * 7036874417766400) (e + -46))
      as [Hz | (p & e' & Hr & He' & Hp)]; [lia | lia | | |].
    + replace (- (e + -46)) with (- e + 46) by lia.
      rewrite Z.pow_add_r by lia. change (2 ^ 46) with 70368744177664. lia.
    + left. exists false. exact Hz.
    + right. exists p, e'. auto.
Qed.

(** [Math.round] of a number between 0 and 100 is an integer between 0 and
    100. *)
Lemma Math_round_bound (p : positive) (e : Z) :
  e <= -46 -> Zpos p <= 100 * 2 ^ (- e) ->
  exists n, 0 <= n <= 100 /\
    Math_round (S754_finite false p e) = (if n =? 0 then S754_zero false else ofZ n).
Proof.
  intros He Hp. unfold Math_round.
  assert (Hneg : (0 <=? e) = false) by (apply Z.leb_gt; lia).
  rewrite Hneg. cbn [cond_Zopp].
  set (n := (2 * Zpos p + 2 ^ (- e)) / 2 ^ (1 - e)).
  exists n. split; [| reflexivity].
  assert (Hpow : 2 ^ (1 - e) = 2 * 2 ^ (- e)).
  { replace (1 - e) with (Z.succ (- e)) by lia. apply Z.pow_succ_r. lia. }
  assert (Hpos : 0 < 2 ^ (- e)) by (apply Z.pow_pos_nonneg; lia).
  unfold n. rewrite Hpow. split.
  - apply Z.div_pos; lia.
  - apply Z.lt_succ_r. apply Z.div_lt_upper_bound; lia.
Qed.

(** ** The metric extractor and the indicator *)

Lemma strictEq_ofZ_small (n : Z) :
  0 <= n <= 100 -> strictEq (ofZ n) (ofZ n) = true.
Proof.
  intros Hn.
  assert (Hall : forallb (fun k => strictEq (ofZ (Z.of_nat k)) (ofZ (Z.of_nat k)))
                         (seq 0 101) = true) by (vm_compute; reflexivity).
  rewrite forallb_forall in Hall.
  specialize (Hall (Z.to_nat n)). rewrite Z2Nat.id in Hall by lia.
  apply Hall. apply in_seq. lia.
Qed.

(** [Math.round(x * 100)] is an integer from 0 to 100 when [x] is between 0
    and 1. *)
Lemma percent_in_range (x : number) :
  wellFormed x = true -> ge x (ofZ 0) = true -> ge (ofZ 1) x = true ->
  integerBetween 0 100 (Num (Math_round (mul x (ofZ 100)))).
Proof.
  intros Hwf H0 H1.
  destruct (mul_100_bound x Hwf H0 H1) as [[s Hz] | (p & e & Hm & He & Hp)].
  - rewrite Hz. exists (S754_zero s), 0. split; [reflexivity |].
    split; [lia |]. destruct s; reflexivity.
  - rewrite Hm. destruct (Math_round_bound p e He Hp) as (n & Hn & Hr).
    rewrite Hr. eexists _, n. split; [reflexivity |]. split; [exact Hn |].
    destruct (n =? 0) eqn:E.
    + apply Z.eqb_eq in E. subst n. reflexivity.
    + apply strictEq_ofZ_small. exact Hn.
Qed.

Lemma scoreField_present (cats : gmap string Category) (name : string) (c : Category) :
  cats !! name = Some c ->
  scoreField cats name = Normal (Num (Math_round (mul (ToNumber (score c)) (ofZ 100)))).
Proof. intros H. unfold scoreField, categoryScore. rewrite H. reflexivity. Qed.

Lemma scoreField_missing (cats : gmap string Category) (name : string) :
  cats !! name = None ->
  scoreField cats name = Throw (TypeError_undefined "score").
Proof. intros H. unfold scoreField, categoryScore. rewrite H. reflexivity. Qed.

(** With its four category entries present, [extractMetrics] returns. *)
Lemma extractMetrics_present (report : Report) (cp ca cb cs : Category) :
  categories report !! "performance" = Some cp ->
  categories report !! "accessibility" = Some ca ->
  categories report !! "best-practices" = Some cb ->
  categories report !! "seo" = Some cs ->
  extractMetrics report = Normal {|
    performance := Num (Math_round (mul (ToNumber (score cp)) (ofZ 100)));
    accessibility := Num (Math_round (mul (ToNumber (score ca)) (ofZ 100)));
    bestPractices := Num (Math_round (mul (ToNumber (score cb)) (ofZ 100)));
    seo := Num (Math_round (mul (ToNumber (score cs)) (ofZ 100)));
    fcp := roundedField (audits report) "first-contentful-paint";
    lcp := roundedField (audits report) "largest-contentful-paint";
    tbt := roundedField (audits report) "total-blocking-time";
    cls := rawField (audits report) "cumulative-layout-shift";
    si := roundedField (audits report) "speed-index";
    error := None
  |}.
Proof.
  intros Hp Ha Hb Hs. unfold extractMetrics.
  rewrite (scoreField_present _ _ _ Hp), (scoreField_present _ _ _ Ha),
    (scoreField_present _ _ _ Hb), (scoreField_present _ _ _ Hs).
  reflexivity.
Qed.

(** C4. For a report whose four category entries carry a score between 0
    and 1, [extractMetrics] returns a metric set whose performance,
    accessibility, best-practices and SEO fields are each
    [Math.round(score * 100)], an integer from 0 to 100; and its CLS field,
    when it is a number, is the source's numeric value, so it is at least 0
    whenever that value is. *)
Theorem extractMetrics_scores_in_range (report : Report) :
  (forall name, In name scoreNames ->
     exists c, categories report !! name = Some c /\ inUnitInterval (score c)) ->
  exists m,
    extractMetrics report = Normal m /\
    (forall name c, In name scoreNames -> categories report !! name = Some c ->
       scoreOf name m = Num (Math_round (mul (ToNumber (score c)) (ofZ 100))) /\
       integerBetween 0 100 (scoreOf name m)) /\
    (forall x, cls m = Num x ->
       auditNumericValue (audits report) "cumulative-layout-shift" = Num x /\
       (forall src,
          auditNumericValue (audits report) "cumulative-layout-shift" = Num src ->
          ge src (ofZ 0) = true -> ge x (ofZ 0) = true)).
Proof.
  intros Hcats.
  destruct (Hcats "performance") as (cp & Hp & Ip); [simpl; auto |].
  destruct (Hcats "accessibility") as (ca & Ha & Ia); [simpl; auto |].
  destruct (Hcats "best-practices") as (cb & Hb & Ib); [simpl; auto |].
  destruct (Hcats "seo") as (cs & Hs & Is); [simpl; auto 6 |].
  eexists. split; [apply (extractMetrics_present report cp ca cb cs); assumption |].
  split.
  - intros name c Hin Hc.
    assert (Hrange : forall c', inUnitInterval (score c') ->
              integerBetween 0 100 (Num (Math_round (mul (ToNumber (score c')) (ofZ 100))))).
    { intros c' (x & Hx & Hwf & H0 & H1). rewrite Hx. cbn [ToNumber].
      apply percent_in_range; assumption. }
    simpl in Hin.
    destruct Hin as [<- | [<- | [<- | [<- | []]]]]; cbn;
      rewrite ?Hp, ?Ha, ?Hb, ?Hs in Hc; inversion Hc; subst c; auto.
  - intros x Hx. cbn [cls] in Hx. unfold rawField in Hx.
    destruct (ToBoolean (auditNumericValue (audits report) "cumulative-layout-shift"));
      [| discriminate].
    split; [exact Hx |].
    intros src Hsrc Hge. rewrite Hx in Hsrc. inversion Hsrc; subst. exact Hge.
Qed.

(** C4, at the sample report. *)
Lemma extractMetrics_scores_in_range_witness :
  exists m,
    extractMetrics Sample.reportGood = Normal m /\
    (forall name c, In name scoreNames ->
       categories Sample.reportGood !! name = Some c ->
       scoreOf name m = Num (Math_round (mul (ToNumber (score c)) (ofZ 100))) /\
       integerBetween 0 100 (scoreOf name m)) /\
    (forall x, cls m = Num x ->
       auditNumericValue (audits Sample.reportGood) "cumulative-layout-shift" = Num x /\
       (forall src,
          auditNumericValue (audits Sample.reportGood) "cumulative-layout-shift" = Num src ->
          ge src (ofZ 0) = true -> ge x (ofZ 0) = true)).
Proof.
  apply (extractMetrics_scores_in_range Sample.reportGood).
  intros name Hin. simpl in Hin.
  destruct Hin as [<- | [<- | [<- | [<- | []]]]];
    (eexists; split; [reflexivity |]; eexists; split; [reflexivity |];
     repeat split; vm_compute; reflexivity).
Defined.

(** Comparison of numbers is antisymmetric. *)
Lemma SFcompare_antisym (x y : number) :
  SFcompare y x = option_map CompOpp (SFcompare x y).
Proof.
  assert (Hpos : forall p q,
            Pos.compare_cont Eq q p = CompOpp (Pos.compare_cont Eq p q)).
  { intros p q. symmetry. apply (Pos.compare_cont_antisym p q Eq). }
  destruct x as [sx | sx | | sx mx ex], y as [sy | sy | | sy my ey];
    try (destruct sx); try (destruct sy); try reflexivity; cbn.
  - rewrite (Z.compare_antisym ex ey).
    destruct (ex ?= ey) eqn:E; cbn; try reflexivity.
    rewrite (Hpos mx my). destruct (Pos.compare_cont Eq mx my); reflexivity.
  - rewrite (Z.compare_antisym ex ey).
    destruct (ex ?= ey) eqn:E; cbn; try reflexivity.
    rewrite (Hpos mx my). reflexivity.
Qed.

Lemma less_not_ge (x y : number) : less x y = true -> ge x y = false.
Proof.
  unfold less, ge, SFltb, SFleb. rewrite (SFcompare_antisym x y).
  destruct (SFcompare x y) as [[| |] |]; cbn; congruence.
Qed.

Lemma less_50_not_ge_90 (x : number) :
  less x (ofZ 50) = true -> ge x (ofZ 90) = false.
Proof.
  assert (H50 : ofZ 50 = S754_finite false 7036874417766400 (-47)) by reflexivity.
  assert (H90 : ofZ 90 = S754_finite false 6333186975989760 (-46)) by reflexivity.
  rewrite H50, H90. unfold less, ge, SFltb, SFleb, SFcompare.
  destruct x as [s | s | | s m e]; try (destruct s);
    try reflexivity; try discriminate.
  destruct (e ?= -47) eqn:E; try discriminate.
  - apply Z.compare_eq in E. subst e. intros _. reflexivity.
  - assert (Hlt : e < -47) by (apply Z.compare_lt_iff; exact E).
    assert (Hgt : (-46 ?= e) = Gt) by (apply Z.compare_gt_iff; lia).
    rewrite Hgt. reflexivity.
Qed.

Lemma getEmojiHTML_integers (n : Z) :
  0 <= n <= 100 ->
  getEmojiHTML (Num (ofZ n)) =
    if 90 <=? n then indicatorGreen
    else if 50 <=? n then indicatorYellow else indicatorRed.
Proof.
  intros Hn.
  assert (Hall :
    forallb (fun k =>
               String.eqb (getEmojiHTML (Num (ofZ (Z.of_nat k))))
                 (if 90 <=? Z.of_nat k then indicatorGreen
                  else if 50 <=? Z.of_nat k then indicatorYellow else indicatorRed))
            (seq 0 101) = true) by (vm_compute; reflexivity).
  rewrite forallb_forall in Hall.
  specialize (Hall (Z.to_nat n)). rewrite Z2Nat.id in Hall by lia.
  apply String.eqb_eq. apply Hall. apply in_seq. lia.
Qed.

(** C6. The indicator of a score is neutral when the score is [null] or
    [undefined], green when it is at least 90, yellow when it is at least
    50 and less than 90, red when it is less than 50; for the integer scores
    0..100 these are the ranges 90..100, 50..89 and 0..49, and in particular
    90 is green, 89 is yellow and 49 is red. *)
Theorem getEmojiHTML_traffic_light (score : value) :
  (nullish score = true -> getEmojiHTML score = indicatorNeutral) /\
  (forall x, score = Num x -> ge x (ofZ 90) = true ->
     getEmojiHTML score = indicatorGreen) /\
  (forall x, score = Num x -> ge x (ofZ 50) = true -> less x (ofZ 90) = true ->
     getEmojiHTML score = indicatorYellow) /\
  (forall x, score = Num x -> less x (ofZ 50) = true ->
     getEmojiHTML score = indicatorRed) /\
  (forall n, score = Num (ofZ n) -> 0 <= n <= 100 ->
     getEmojiHTML score =
       if 90 <=? n then indicatorGreen
       else if 50 <=? n then indicatorYellow else indicatorRed) /\
  getEmojiHTML (Num (ofZ 90)) = indicatorGreen /\
  getEmojiHTML (Num (ofZ 89)) = indicatorYellow /\
  getEmojiHTML (Num (ofZ 49)) = indicatorRed.
Proof.
  repeat split; try reflexivity.
  - destruct score; [reflexivity | reflexivity | discriminate].
  - intros x -> H. unfold getEmojiHTML. rewrite H. reflexivity.
  - intros x -> H50 H90. unfold getEmojiHTML.
    rewrite (less_not_ge _ _ H90), H50. reflexivity.
  - intros x -> H. unfold getEmojiHTML.
    rewrite (less_50_not_ge_90 _ H), (less_not_ge _ _ H). reflexivity.
  - intros n -> Hn. apply getEmojiHTML_integers. exact Hn.
Qed.

(** C6, at the absent score and at the scores 95, 72 and 10. *)
Lemma getEmojiHTML_traffic_light_witness :
  getEmojiHTML Null = indicatorNeutral /\
  getEmojiHTML (Num (ofZ 95)) = indicatorGreen /\
  getEmojiHTML (Num (ofZ 72)) = indicatorYellow /\
  getEmojiHTML (Num (ofZ 10)) = indicatorRed /\
  getEmojiHTML (Num (ofZ 50)) = indicatorYellow.
Proof.
  split; [apply (proj1 (getEmojiHTML_traffic_light Null)); reflexivity |].
  split; [apply (proj1 (proj2 (getEmojiHTML_traffic_light (Num (ofZ 95)))) (ofZ 95));
          reflexivity |].
  split; [apply (proj1 (proj2 (proj2 (getEmojiHTML_traffic_light (Num (ofZ 72))))) (ofZ 72));
          reflexivity |].
  split; [apply (proj1 (proj2 (proj2 (proj2 (getEmojiHTML_traffic_light (Num (ofZ 10)))))) (ofZ 10));
          reflexivity |].
  apply (proj1 (proj2 (proj2 (proj2 (proj2 (getEmojiHTML_traffic_light (Num (ofZ 50))))))) 50);
    [reflexivity | lia].
Defined.

(** C3. On the report of a page whose total blocking time and cumulative
    layout shift are the number 0, [extractMetrics] returns [null] for both
    fields, although it returns the number 0 for a first contentful paint
    of 0.3 ms: the zero of the source is taken for a missing value. *)
Theorem extractMetrics_zero_is_absent :
  auditNumericValue (audits Sample.reportZero) "total-blocking-time" = Num (ofZ 0) /\
  auditNumericValue (audits Sample.reportZero) "cumulative-layout-shift" = Num (ofZ 0) /\
  exists m,
    extractMetrics Sample.reportZero = Normal m /\
    tbt m = Null /\ cls m = Null /\ fcp m = Num (ofZ 0).
Proof.
  split; [reflexivity |]. split; [reflexivity |].
  eexists. split; [vm_compute; reflexivity |].
  repeat split; reflexivity.
Qed.

Ltac solve_lookup :=
  cbn [categories];
  first [ apply lookup_insert_eq
        | (rewrite lookup_insert_ne by discriminate); eassumption ].

(** C10. When the four category entries exist and one of them has a [null]
    score, [extractMetrics] returns, the field of that category is the
    number 0, and the metric set is the one extracted from the report in
    which that score is the number 0. *)
Theorem extractMetrics_null_score_is_zero
    (cats : gmap string Category) (auds : gmap string Audit) (name : string) :
  In name scoreNames ->
  (forall n, In n scoreNames -> is_Some (cats !! n)) ->
  cats !! name = Some {| score := Null |} ->
  exists m,
    extractMetrics {| categories := cats; audits := auds |} = Normal m /\
    scoreOf name m = Num (ofZ 0) /\
    error m = None /\
    extractMetrics {| categories := <[name := {| score := Num (ofZ 0) |}]> cats;
                      audits := auds |} = Normal m.
Proof.
  intros Hin Hall Hnull.
  destruct (Hall "performance") as [cp Hp]; [simpl; auto |].
  destruct (Hall "accessibility") as [ca Ha]; [simpl; auto |].
  destruct (Hall "best-practices") as [cb Hb]; [simpl; auto |].
  destruct (Hall "seo") as [cs Hs]; [simpl; auto 6 |].
  eexists. split.
  { apply (extractMetrics_present _ cp ca cb cs); assumption. }
  set (zero := {| score := Num (ofZ 0) |}).
  simpl in Hin.
  destruct Hin as [<- | [<- | [<- | [<- | []]]]];
    rewrite ?Hp, ?Ha, ?Hb, ?Hs in Hnull; inversion Hnull; subst;
    (split; [reflexivity |]); (split; [reflexivity |]).
  - rewrite (extractMetrics_present _ zero ca cb cs) by solve_lookup. reflexivity.
  - rewrite (extractMetrics_present _ cp zero cb cs) by solve_lookup. reflexivity.
  - rewrite (extractMetrics_present _ cp ca zero cs) by solve_lookup. reflexivity.
  - rewrite (extractMetrics_present _ cp ca cb zero) by solve_lookup. reflexivity.
Qed.

(** C10, at the sample report with a [null] performance score. *)
Lemma extractMetrics_null_score_is_zero_witness :
  exists m,
    extractMetrics Sample.reportNullScore = Normal m /\
    scoreOf "performance" m = Num (ofZ 0) /\
    error m = None /\
    extractMetrics {| categories := <["performance" := {| score := Num (ofZ 0) |}]>
                                      (categories Sample.reportNullScore);
                      audits := audits Sample.reportNullScore |} = Normal m.
Proof.
  apply (extractMetrics_null_score_is_zero
           (categories Sample.reportNullScore) (audits Sample.reportNullScore)
           "performance").
  - simpl. auto.
  - intros n Hn. simpl in Hn.
    destruct Hn as [<- | [<- | [<- | [<- | []]]]]; eexists; reflexivity.
  - reflexivity.
Defined.

(** ** The orchestration loop and the configuration check *)

Lemma analyzeProfile_settles (h : Host) (url : string) (preset : Preset) (s : State h) :
  analyzeProfile h url preset s =
    (Normal (settle (fst (runLighthouse h url preset s))),
     snd (runLighthouse h url preset s)).
Proof.
  unfold analyzeProfile, tryCatch, bind, lift, ret, settle.
  destruct (runLighthouse h url preset s) as [[report | e] s1]; cbn [fst snd].
  - destruct (extractMetrics report); reflexivity.
  - reflexivity.
Qed.

Lemma analyzeUrl_settles (h : Host) (u : string) (s : State h) :
  analyzeUrl h u s =
    (Normal {| url := u;
               desktop := settle (invocation h u PresetDesktop s);
               mobile := settle (invocation h u PresetMobile s) |},
     snd (runLighthouse h u PresetDesktop (snd (runLighthouse h u PresetMobile s)))).
Proof.
  unfold analyzeUrl, bind, ret, invocation, invocationState.
  rewrite analyzeProfile_settles, analyzeProfile_settles. reflexivity.
Qed.

(** The loop returns the array it was given followed by one result per URL,
    in the order of the URLs. *)
Lemma analyzeLoop_returns (h : Host) (urls : list string) :
  forall (acc : list URLResult) (s : State h),
  exists rs s',
    analyzeLoop h urls acc s = (Normal (acc ++ rs), s') /\
    List.map url rs = urls.
Proof.
  induction urls as [| u rest IH]; intros acc s.
  - exists [], s. rewrite app_nil_r. split; reflexivity.
  - cbn [analyzeLoop]. unfold bind at 1. rewrite analyzeUrl_settles.
    match goal with |- context [analyzeLoop h rest (acc ++ [?r]) ?s1] =>
      destruct (IH (acc ++ [r]) s1) as (rs & s' & Hloop & Hmap);
      exists (r :: rs), s'
    end.
    rewrite Hloop, <- app_assoc. split; [reflexivity |].
    cbn. rewrite Hmap. reflexivity.
Qed.

(** The loop over a concatenation is the loop over the first part followed
    by the loop over the second. *)
Lemma analyzeLoop_app (h : Host) (us1 us2 : list string) :
  forall (acc : list URLResult) (s : State h),
  analyzeLoop h (us1 ++ us2) acc s =
    match analyzeLoop h us1 acc s with
    | (Normal acc1, s1) => analyzeLoop h us2 acc1 s1
    | (Throw e, s1) => (Throw e, s1)
    end.
Proof.
  induction us1 as [| u rest IH]; intros acc s.
  - reflexivity.
  - cbn [app analyzeLoop]. unfold bind. rewrite analyzeUrl_settles.
    apply IH.
Qed.

(** C2. For every URL list (in particular every non-empty one),
    [analyzeUrls] returns an array with exactly one result per input URL:
    its length is the length of the list and the URLs of its entries are
    the input URLs in the same order. *)
Theorem analyzeUrls_one_result_per_url (h : Host) (urls : list string) (s : State h) :
  exists results s',
    analyzeUrls h urls s = (Normal results, s') /\
    length results = length urls /\
    List.map url results = urls.
Proof.
  destruct (analyzeLoop_returns h urls [] s) as (rs & s' & Hloop & Hmap).
  exists rs, s'. split; [exact Hloop |]. split; [| exact Hmap].
  rewrite <- Hmap, length_map. reflexivity.
Qed.

(** The result stored for the URL of index [i]. *)
Lemma analyzeUrls_at (h : Host) (urls : list string) (s : State h) (i : nat) (u : string) :
  urls !! i = Some u ->
  exists results s',
    analyzeUrls h urls s = (Normal results, s') /\
    List.map url results = urls /\
    results !! i =
      Some {| url := u;
              desktop := settle (invocation h u PresetDesktop (stateBefore h urls i s));
              mobile := settle (invocation h u PresetMobile (stateBefore h urls i s)) |}.
Proof.
  intros Hi.
  destruct (analyzeLoop_returns h urls [] s) as (rs & s' & Hloop & Hmap).
  exists rs, s'. split; [exact Hloop |]. split; [exact Hmap |].
  assert (Hsplit : urls = take i urls ++ u :: drop (S i) urls).
  { rewrite <- (take_drop_middle urls i u Hi) at 1. reflexivity. }
  unfold analyzeUrls in Hloop. rewrite Hsplit, analyzeLoop_app in Hloop.
  unfold stateBefore, analyzeUrls.
  destruct (analyzeLoop_returns h (take i urls) [] s) as (rs1 & s1 & Hloop1 & Hmap1).
  rewrite Hloop1 in Hloop |- *. cbn [snd app] in Hloop |- *.
  cbn [analyzeLoop] in Hloop. unfold bind at 1 in Hloop.
  rewrite analyzeUrl_settles in Hloop.
  match type of Hloop with context [analyzeLoop h ?rest (rs1 ++ [?r]) ?s2] =>
    destruct (analyzeLoop_returns h rest (rs1 ++ [r]) s2) as (rs2 & s3 & Hloop2 & _)
  end.
  rewrite Hloop2 in Hloop. inversion Hloop as [[Hrs Hs]]. 
  assert (Hlen : length rs1 = i).
  { rewrite <- (length_map url), Hmap1, length_take.
    apply lookup_lt_Some in Hi. lia. }
  rewrite <- app_assoc. rewrite lookup_app_r by lia.
  rewrite Hlen, Nat.sub_diag. reflexivity.
Qed.

(** C1. When the run of [runLighthouse] for profile [preset] of the URL of
    index [i] throws [e], [analyzeUrls] still returns one result per input
    URL, and in the result of that URL the metric set of [preset] has its
    nine metric fields [null] and carries the message of [e], while the
    metric set of the other profile is the one its own run gives: the
    extracted metrics if that run and the extraction succeed, the all-null
    metric set with its own error message otherwise. *)
Theorem analyzeUrls_isolates_failure
    (h : Host) (urls : list string) (s : State h)
    (i : nat) (u : string) (preset : Preset) (e : Error) :
  urls !! i = Some u ->
  invocation h u preset (stateBefore h urls i s) = Throw e ->
  exists results s' r,
    analyzeUrls h urls s = (Normal results, s') /\
    List.map url results = urls /\
    results !! i = Some r /\
    url r = u /\
    allAbsent (metricsFor preset r) /\
    error (metricsFor preset r) = Some (message e) /\
    metricsFor (otherPreset preset) r =
      settle (invocation h u (otherPreset preset) (stateBefore h urls i s)).
Proof.
  intros Hi Hfail.
  destruct (analyzeUrls_at h urls s i u Hi) as (results & s' & Hrun & Hmap & Hr).
  eexists results, s', _. split; [exact Hrun |]. split; [exact Hmap |].
  split; [exact Hr |]. split; [reflexivity |].
  destruct preset; cbn [metricsFor otherPreset desktop mobile];
    rewrite Hfail; cbn [settle];
    (split; [repeat constructor |]); split; reflexivity.
Qed.

(** C1, on a run over two URLs in which the mobile audit of the second URL
    fails and its desktop audit succeeds. *)
Lemma analyzeUrls_isolates_failure_witness :
  exists results s' r,
    analyzeUrls Sample.host ["https://a.example"; "https://b.example"]
      (Sample.start 1000 [Some "good"; Some "good"; None; Some "zero"])
      = (Normal results, s') /\
    List.map url results = ["https://a.example"; "https://b.example"] /\
    results !! 1%nat = Some r /\
    url r = "https://b.example" /\
    allAbsent (metricsFor PresetMobile r) /\
    error (metricsFor PresetMobile r) = Some "Command failed: lighthouse" /\
    metricsFor PresetDesktop r =
      settle (invocation Sample.host "https://b.example" PresetDesktop
                (stateBefore Sample.host ["https://a.example"; "https://b.example"] 1
                   (Sample.start 1000 [Some "good"; Some "good"; None; Some "zero"]))).
Proof.
  apply (analyzeUrls_isolates_failure Sample.host
           ["https://a.example"; "https://b.example"]
           (Sample.start 1000 [Some "good"; Some "good"; None; Some "zero"])
           1 "https://b.example" PresetMobile
           (mkError "Command failed: lighthouse")).
  - reflexivity.
  - vm_compute. reflexivity.
Defined.

(** C8. When the URL list variable is missing, is empty, or yields no URL
    after splitting, trimming and dropping the empty pieces, the script
    exits with code 1 in the state it started in: nothing was executed and
    nothing was written. *)
Theorem main_configuration_error (h : Host) (env : option string) (s : State h) :
  env = None \/ env = Some EmptyString \/ urls env = [] ->
  main h env s = (1, s) /\ trace (snd (main h env s)) = trace s.
Proof.
  intros Hcfg.
  assert (Hnone : urls env = []).
  { destruct Hcfg as [-> | [-> | H]]; [reflexivity | reflexivity | exact H]. }
  assert (Hmain : main h env s = (1, s)).
  { unfold main. rewrite Hnone.
    destruct (_ || _); reflexivity. }
  rewrite Hmain. split; reflexivity.
Qed.

(** C8, on a variable that holds only commas and blanks. *)
Lemma main_configuration_error_witness :
  main Sample.host (Some " , ,") (Sample.start 1000 [Some "good"])
    = (1, Sample.start 1000 [Some "good"]) /\
  trace (snd (main Sample.host (Some " , ,") (Sample.start 1000 [Some "good"])))
    = trace (Sample.start 1000 [Some "good"]).
Proof.
  apply (main_configuration_error Sample.host (Some " , ,")
           (Sample.start 1000 [Some "good"])).
  right. right. reflexivity.
Defined.

(** ** The tabular export *)

Lemma append_cons (x : ascii) (a b : string) :
  String x a +:+ b = String x (a +:+ b).
Proof. reflexivity. Qed.

Lemma append_nil (b : string) : EmptyString +:+ b = b.
Proof. reflexivity. Qed.

Lemma append_assoc (a b c : string) : (a +:+ b) +:+ c = a +:+ (b +:+ c).
Proof.
  induction a as [| x a IH]; [reflexivity |].
  rewrite !append_cons, IH. reflexivity.
Qed.

Lemma occurs_append (c : ascii) (a b : string) :
  occurs c (a +:+ b) = occurs c a || occurs c b.
Proof.
  induction a as [| x a IH]; [reflexivity |].
  rewrite append_cons. cbn [occurs]. rewrite IH. apply orb_assoc.
Qed.

(** Splitting at a separator: a piece without the separator is cut off
    whole. *)
Lemma split_append (sep : ascii) (a b : string) :
  occurs sep a = false ->
  split sep (a +:+ String sep b) = a :: split sep b.
Proof.
  induction a as [| x a IH]; intros H.
  - rewrite append_nil. cbn [split]. rewrite Ascii.eqb_refl. reflexivity.
  - cbn [occurs] in H. apply orb_false_iff in H as [Hx Ha].
    rewrite append_cons. cbn [split]. rewrite Hx, (IH Ha). reflexivity.
Qed.

Lemma split_whole (sep : ascii) (a : string) :
  occurs sep a = false -> split sep a = [a].
Proof.
  induction a as [| x a IH]; intros H; [reflexivity |].
  cbn [occurs] in H. apply orb_false_iff in H as [Hx Ha].
  cbn [split]. rewrite Hx, (IH Ha). reflexivity.
Qed.

(** Joining with a separator and splitting at it gives the pieces back,
    when no piece contains the separator. *)
Lemma split_join (sep : ascii) (cells : list string) :
  cells <> [] ->
  forallb (fun c => negb (occurs sep c)) cells = true ->
  split sep (join (String sep EmptyString) cells) = cells.
Proof.
  induction cells as [| c rest IH]; [congruence |]. intros _ Hall.
  cbn in Hall. apply andb_prop in Hall as [Hc Hrest].
  apply negb_true_iff in Hc.
  destruct rest as [| c' rest'].
  - cbn. apply split_whole. exact Hc.
  - change (join (String sep EmptyString) (c :: c' :: rest'))
      with (c +:+ String sep (join (String sep EmptyString) (c' :: rest'))).
    rewrite (split_append sep c _ Hc), IH; [reflexivity | discriminate | exact Hrest].
Qed.

Lemma lines_append (a b : string) :
  occurs (ascii_of_nat 10) a = false ->
  lines (a +:+ LF +:+ b) = a :: lines b.
Proof.
  induction a as [| x a IH]; intros H.
  - rewrite append_nil. reflexivity.
  - cbn [occurs] in H. apply orb_false_iff in H as [Hx Ha].
    rewrite append_cons. cbn [lines]. rewrite Hx, (IH Ha). reflexivity.
Qed.

Lemma lines_whole (a : string) :
  a <> EmptyString -> occurs (ascii_of_nat 10) a = false -> lines a = [a].
Proof.
  induction a as [| x a IH]; [congruence |]. intros _ H.
  cbn [occurs] in H. apply orb_false_iff in H as [Hx Ha].
  cbn [lines]. rewrite Hx.
  destruct a as [| y a'].
  - reflexivity.
  - rewrite IH; [reflexivity | discriminate | exact Ha].
Qed.

(** The lines of rows joined by line feeds are the rows, when every row is
    non-empty and free of line feeds. *)
Lemma lines_join (rows : list string) :
  Forall (fun row => row <> EmptyString /\ occurs (ascii_of_nat 10) row = false) rows ->
  lines (join LF rows) = rows.
Proof.
  induction rows as [| r rest IH]; intros Hall; [reflexivity |].
  inversion Hall as [| ? ? [Hne Hlf] Hrest]; subst.
  destruct rest as [| r' rest'].
  - cbn. apply lines_whole; assumption.
  - change (join LF (r :: r' :: rest')) with (r +:+ LF +:+ join LF (r' :: rest')).
    rewrite (lines_append r _ Hlf), (IH Hrest). reflexivity.
Qed.

Lemma occurs_join (c : ascii) (sep : string) (cells : list string) :
  occurs c sep = false ->
  forallb (fun s => negb (occurs c s)) cells = true ->
  occurs c (join sep cells) = false.
Proof.
  intros Hsep. induction cells as [| x rest IH]; intros Hall; [reflexivity |].
  cbn [forallb] in Hall. apply andb_prop in Hall as [Hx Hrest].
  apply negb_true_iff in Hx.
  destruct rest as [| y rest'].
  - exact Hx.
  - change (join sep (x :: y :: rest')) with (x +:+ sep +:+ join sep (y :: rest')).
    rewrite !occurs_append, Hx, Hsep, (IH Hrest). reflexivity.
Qed.

(** A CSV row is its nineteen cells joined by commas. *)
Lemma csvRow_join (h : Host) (r : URLResult) :
  csvRow h r =
    join "," (url r :: csvCells h (desktop r) ++ csvCells h (mobile r)).
Proof.
  unfold csvRow, csvMetrics, csvCells, metricFields, join.
  cbn [List.map app String.concat].
  rewrite !append_assoc. reflexivity.
Qed.

Lemma plain_cells (h : Host) (r : URLResult) (c : ascii) :
  (c = ","%char \/ c = ascii_of_nat 10) ->
  plain (url r) && forallb plain (csvCells h (desktop r))
    && forallb plain (csvCells h (mobile r)) = true ->
  forallb (fun s => negb (occurs c s))
    (url r :: csvCells h (desktop r) ++ csvCells h (mobile r)) = true.
Proof.
  intros Hc Hsafe.
  apply andb_prop in Hsafe as [Hsafe Hm]. apply andb_prop in Hsafe as [Hu Hd].
  assert (Hweak : forall s, plain s = true -> negb (occurs c s) = true).
  { intros s Hs. unfold plain in Hs. apply andb_prop in Hs as [H1 H2].
    destruct Hc as [-> | ->]; assumption. }
  cbn [forallb]. rewrite (Hweak _ Hu). cbn [andb].
  rewrite forallb_app. rewrite forallb_forall in Hd, Hm.
  apply andb_true_intro.
  split; apply forallb_forall; intros s Hs; apply Hweak; auto.
Qed.

Lemma csvRow_columns (h : Host) (r : URLResult) :
  plain (url r) && forallb plain (csvCells h (desktop r))
    && forallb plain (csvCells h (mobile r)) = true ->
  columns (csvRow h r) =
    url r :: csvCells h (desktop r) ++ csvCells h (mobile r).
Proof.
  intros Hsafe. unfold columns. rewrite csvRow_join.
  apply split_join; [discriminate |].
  apply plain_cells; [left; reflexivity | exact Hsafe].
Qed.

Lemma csvRow_one_line (h : Host) (r : URLResult) :
  plain (url r) && forallb plain (csvCells h (desktop r))
    && forallb plain (csvCells h (mobile r)) = true ->
  csvRow h r <> EmptyString /\ occurs (ascii_of_nat 10) (csvRow h r) = false.
Proof.
  intros Hsafe. split.
  - unfold csvRow. destruct (url r); discriminate.
  - rewrite csvRow_join. apply occurs_join; [reflexivity |].
    apply plain_cells; [right; reflexivity | exact Hsafe].
Qed.

Lemma csvCells_length (h : Host) (m : MetricSet) : length (csvCells h m) = 9%nat.
Proof. reflexivity. Qed.

Lemma csv_lines (h : Host) (results : list URLResult) :
  csvSafe h results = true ->
  lines (csvContent h results) = csvHeaderLine :: List.map (csvRow h) results.
Proof.
  intros Hsafe. unfold csvContent, csvRows.
  assert (Hhead : csvHeader = csvHeaderLine +:+ LF +:+ EmptyString) by reflexivity.
  rewrite Hhead, !append_assoc, append_nil.
  rewrite lines_append by reflexivity. f_equal.
  apply lines_join. apply List.Forall_forall. intros row Hrow.
  apply in_map_iff in Hrow as (r & <- & Hr).
  apply csvRow_one_line.
  unfold csvSafe in Hsafe. rewrite forallb_forall in Hsafe. apply Hsafe, Hr.
Qed.

(** C5, as the code has it. When no URL and no rendered metric of a batch
    result contains a comma or a line feed, the lines of the CSV text are
    the header row followed by one row per URL, so there are as many as
    the batch has entries plus one; every line has 19 columns; the row of a
    URL holds the URL, its nine desktop cells and its nine mobile cells;
    and the cell of a metric that is [null] or [undefined] is the text
    ERROR. *)
Theorem csv_rows_and_columns (h : Host) (results : list URLResult) :
  csvSafe h results = true ->
  lines (csvContent h results) = csvHeaderLine :: List.map (csvRow h) results /\
  length (lines (csvContent h results)) = S (length results) /\
  Forall (fun row => length (columns row) = 19%nat) (lines (csvContent h results)) /\
  (forall i r, results !! i = Some r ->
     exists row,
       lines (csvContent h results) !! S i = Some row /\
       columns row = url r :: csvCells h (desktop r) ++ csvCells h (mobile r) /\
       forall k v,
         (metricFields (desktop r) ++ metricFields (mobile r)) !! k = Some v ->
         nullish v = true ->
         columns row !! S k = Some "ERROR").
Proof.
  intros Hsafe. pose proof (csv_lines h results Hsafe) as Hlines.
  assert (Hrow : forall r, In r results ->
            plain (url r) && forallb plain (csvCells h (desktop r))
              && forallb plain (csvCells h (mobile r)) = true).
  { intros r Hr. unfold csvSafe in Hsafe. rewrite forallb_forall in Hsafe.
    apply Hsafe, Hr. }
  split; [exact Hlines |]. rewrite Hlines. split.
  { cbn [length]. rewrite length_map. reflexivity. }
  split.
  { constructor; [vm_compute; reflexivity |].
    apply List.Forall_forall. intros row Hin.
    apply in_map_iff in Hin as (r & <- & Hr).
    rewrite (csvRow_columns h r (Hrow r Hr)).
    cbn [length]. rewrite length_app, !csvCells_length. reflexivity. }
  intros i r Hi. exists (csvRow h r).
  assert (Hin : In r results).
  { apply list_elem_of_In. eapply list_elem_of_lookup_2. exact Hi. }
  split.
  { change ((csvHeaderLine :: List.map (csvRow h) results) !! S i)
      with (List.map (csvRow h) results !! i).
    change (List.map (csvRow h) results) with (csvRow h <$> results).
    rewrite list_lookup_fmap, Hi. reflexivity. }
  split; [apply csvRow_columns, Hrow, Hin |].
  intros k v Hk Hnull.
  rewrite (csvRow_columns h r (Hrow r Hin)).
  change ((url r :: csvCells h (desktop r) ++ csvCells h (mobile r)) !! S k)
    with ((csvCells h (desktop r) ++ csvCells h (mobile r)) !! k).
  unfold csvCells. rewrite <- map_app.
  change (List.map (orElse h "ERROR") (metricFields (desktop r) ++ metricFields (mobile r)))
    with (orElse h "ERROR" <$> (metricFields (desktop r) ++ metricFields (mobile r))).
  rewrite list_lookup_fmap, Hk. cbn.
  destruct v; [reflexivity | reflexivity | discriminate].
Qed.

(** C5, on the batch result of the sample run over two URLs. *)
Lemma csv_rows_and_columns_witness :
  length (lines (csvContent Sample.host Sample.twoUrlBatch)) = 3%nat /\
  Forall (fun row => length (columns row) = 19%nat)
    (lines (csvContent Sample.host Sample.twoUrlBatch)).
Proof.
  destruct (csv_rows_and_columns Sample.host Sample.twoUrlBatch) as (_ & Hn & Hc & _).
  - vm_compute. reflexivity.
  - split; [exact Hn | exact Hc].
Defined.

(** C5 fails as stated. A URL list written one URL per line is read as a
    single URL that contains a line feed; the batch result of that run has
    one entry, and its CSV text has three lines, the second of which has a
    single column. *)
Lemma csv_rows_counterexample :
  urls (Some Sample.urlPerLine) = [Sample.urlPerLine] /\
  fst (analyzeUrls Sample.host (urls (Some Sample.urlPerLine)) (Sample.start 1000 []))
    = Normal Sample.urlPerLineBatch /\
  length Sample.urlPerLineBatch = 1%nat /\
  length (lines (csvContent Sample.host Sample.urlPerLineBatch)) = 3%nat /\
  List.map (fun row => length (columns row))
    (lines (csvContent Sample.host Sample.urlPerLineBatch)) = [19; 1; 19]%nat /\
  ~ (length (lines (csvContent Sample.host Sample.urlPerLineBatch))
       = S (length Sample.urlPerLineBatch) /\
     Forall (fun row => length (columns row) = 19%nat)
       (lines (csvContent Sample.host Sample.urlPerLineBatch))).
Proof.
  split; [vm_compute; reflexivity |].
  split; [vm_compute; reflexivity |].
  split; [reflexivity |].
  split; [vm_compute; reflexivity |].
  split; [vm_compute; reflexivity |].
  intros [Hn _]. vm_compute in Hn. discriminate Hn.
Qed.

(** ** The archive and the emitters *)

Lemma serialize_value (v : value) :
  archivable v = true ->
  exists j, serializeJSONProperty (valueJS v) = Some j /\ JSON_parse j = valueJS v.
Proof.
  destruct v as [| | [s | s | | s m e]]; cbn; intros H; try discriminate;
    try (eexists; split; reflexivity).
  destruct s; [discriminate |]. eexists; split; reflexivity.
Qed.

Lemma serialize_metricSet (m : MetricSet) :
  forallb archivable (metricFields m) = true ->
  exists j, serializeJSONProperty (metricSetJS m) = Some j /\
            JSON_parse j = metricSetJS m.
Proof.
  destruct m as [v1 v2 v3 v4 v5 v6 v7 v8 v9 err].
  unfold metricFields. cbn [performance accessibility bestPractices seo fcp lcp tbt cls si forallb].
  intros H.
  repeat (apply andb_prop in H as [?H H]).
  destruct (serialize_value v1) as (j1 & S1 & P1); [assumption |].
  destruct (serialize_value v2) as (j2 & S2 & P2); [assumption |].
  destruct (serialize_value v3) as (j3 & S3 & P3); [assumption |].
  destruct (serialize_value v4) as (j4 & S4 & P4); [assumption |].
  destruct (serialize_value v5) as (j5 & S5 & P5); [assumption |].
  destruct (serialize_value v6) as (j6 & S6 & P6); [assumption |].
  destruct (serialize_value v7) as (j7 & S7 & P7); [assumption |].
  destruct (serialize_value v8) as (j8 & S8 & P8); [assumption |].
  destruct (serialize_value v9) as (j9 & S9 & P9); [assumption |].
  unfold metricSetJS.
  cbn [performance accessibility bestPractices seo fcp lcp tbt cls si error].
  destruct err as [msg |]; cbn [app serializeJSONProperty];
    rewrite S1, S2, S3, S4, S5, S6, S7, S8, S9;
    (eexists; split; [reflexivity |]);
    cbn [JSON_parse List.map fst snd];
    rewrite P1, P2, P3, P4, P5, P6, P7, P8, P9; reflexivity.
Qed.

Lemma serialize_urlResult (r : URLResult) :
  forallb archivable (metricFields (desktop r))
    && forallb archivable (metricFields (mobile r)) = true ->
  exists j, serializeJSONProperty (urlResultJS r) = Some j /\
            JSON_parse j = urlResultJS r.
Proof.
  intros H. apply andb_prop in H as [Hd Hm].
  destruct (serialize_metricSet _ Hd) as (jd & Sd & Pd).
  destruct (serialize_metricSet _ Hm) as (jm & Sm & Pm).
  unfold urlResultJS. cbn [serializeJSONProperty]. rewrite Sd, Sm.
  eexists; split; [reflexivity |].
  cbn [JSON_parse List.map fst snd]. rewrite Pd, Pm. reflexivity.
Qed.

Lemma serialize_results (results : list URLResult) :
  archivableBatch results = true ->
  List.map JSON_parse
    (List.map (fun e => default json_null (serializeJSONProperty e))
       (List.map urlResultJS results))
  = List.map urlResultJS results.
Proof.
  induction results as [| r rest IH]; intros H; [reflexivity |].
  cbn [archivableBatch forallb] in H. apply andb_prop in H as [Hr Hrest].
  destruct (serialize_urlResult r Hr) as (j & Sj & Pj).
  cbn [List.map]. rewrite Sj. cbn [from_option id]. rewrite Pj, (IH Hrest). reflexivity.
Qed.

(** Serializing the historical data and parsing the document gives the
    data back. *)
Lemma historicalData_round_trip (timestamp date : string) (results : list URLResult) :
  archivableBatch results = true ->
  exists document,
    JSON_stringify (historicalData timestamp date results) = Some document /\
    JSON_parse document = historicalData timestamp date results.
Proof.
  intros H. unfold JSON_stringify, historicalData, resultsJS.
  cbn [serializeJSONProperty]. eexists; split; [reflexivity |].
  cbn [JSON_parse List.map fst snd]. rewrite (serialize_results results H).
  reflexivity.
Qed.

Lemma artifacts_app (l1 l2 : list Event) :
  artifacts (l1 ++ l2) = artifacts l1 ++ artifacts l2.
Proof. apply omap_app. Qed.

Lemma Date_now_reads (h : Host) (s : State h) :
  Date_now h s =
    (Normal (fst (clock h (world s))),
     {| world := snd (clock h (world s)); trace := trace s |}).
Proof. unfold Date_now, observe. destruct (clock h (world s)); reflexivity. Qed.

Lemma existsSync_reads (h : Host) (path : string) (s : State h) :
  existsSync h path s =
    (Normal (fst (fs_existsSync h path (world s))),
     {| world := snd (fs_existsSync h path (world s)); trace := trace s |}).
Proof. unfold existsSync, observe. destruct (fs_existsSync h path (world s)); reflexivity. Qed.

Lemma perform_records {A} (h : Host) (ev : Event)
    (f : World h -> Completion A * World h) (s : State h) :
  perform h ev f s =
    (fst (f (world s)),
     {| world := snd (f (world s)); trace := trace s ++ [ev] |}).
Proof. unfold perform. destruct (f (world s)); reflexivity. Qed.

(** What [saveResultsToCSV] writes: one file, named after the clock reading
    it takes, whose content is the CSV text of the results. *)
Lemma saveResultsToCSV_writes (h : Host) (results : list URLResult) (s : State h) :
  trace (snd (saveResultsToCSV h results s)) =
    trace s ++
    [CallWriteFile (csvFilename (toISOString h (fst (clock h (world s)))))
       (TextFile (csvContent h results))] /\
  forall path, fst (saveResultsToCSV h results s) = Normal path ->
    path = csvFilename (toISOString h (fst (clock h (world s)))).
Proof.
  unfold saveResultsToCSV, bind, ret, writeFileSync.
  rewrite Date_now_reads, perform_records. cbn [world trace].
  destruct (fst (fs_writeFileSync h _ _ _)); cbn [fst snd trace].
  - split; [reflexivity |]. intros path [= <-]. reflexivity.
  - split; [reflexivity |]. discriminate.
Qed.

(** What [generateSimplifiedHTMLEmail] writes: one file; the date in its
    content comes from a first clock reading, its name from a second. *)
Lemma generateSimplifiedHTMLEmail_writes (h : Host) (results : list URLResult) (s : State h) :
  let t1 := fst (clock h (world s)) in
  let t2 := fst (clock h (snd (clock h (world s)))) in
  trace (snd (generateSimplifiedHTMLEmail h results s)) =
    trace s ++
    [CallWriteFile (htmlFilename (toISOString h t2))
       (TextFile (htmlContent h (toLocaleString h t1) results))] /\
  forall path, fst (generateSimplifiedHTMLEmail h results s) = Normal path ->
    path = htmlFilename (toISOString h t2).
Proof.
  unfold generateSimplifiedHTMLEmail, bind, ret, writeFileSync.
  rewrite Date_now_reads, Date_now_reads, perform_records. cbn [world trace].
  destruct (fst (fs_writeFileSync h _ _ _)); cbn [fst snd trace].
  - split; [reflexivity |]. intros path [= <-]. reflexivity.
  - split; [reflexivity |]. discriminate.
Qed.

(** What [saveHistoricalData] writes when it returns: one file, named after
    a first clock reading, holding the serialized historical data: that
    reading, the date of a second reading, and the results. *)
Lemma saveHistoricalData_writes (h : Host) (results : list URLResult)
    (s s' : State h) (path : string) :
  saveHistoricalData h results s = (Normal path, s') ->
  exists t t' document,
    path = historyFilename (toISOString h t) /\
    JSON_stringify
      (historicalData (toISOString h t) (toLocaleString h t') results)
      = Some document /\
    artifacts (trace s') = artifacts (trace s) ++ [(path, JSONFile document)] /\
    forall t0, frozenClock h t0 -> t = t0 /\ t' = t0.
Proof.
  unfold saveHistoricalData, bind at 1. rewrite existsSync_reads.
  set (s1 := {| world := snd (fs_existsSync h historyDir (world s)); trace := trace s |}).
  assert (Hs1 : artifacts (trace s1) = artifacts (trace s)) by reflexivity.
  clearbody s1.
  unfold bind at 1.
  assert (Hdir : forall c s2,
            (if fst (fs_existsSync h historyDir (world s)) then ret h tt
             else mkdirSync h historyDir) s1 = (c, s2) ->
            artifacts (trace s2) = artifacts (trace s)).
  { intros c s2. destruct (fst (fs_existsSync h historyDir (world s))).
    - unfold ret. intros [= _ <-]. exact Hs1.
    - unfold mkdirSync. rewrite perform_records. intros [= _ <-].
      cbn [trace]. rewrite artifacts_app, Hs1. cbn. apply app_nil_r. }
  destruct ((if fst (fs_existsSync h historyDir (world s)) then ret h tt
             else mkdirSync h historyDir) s1) as [[[] | e] s2] eqn:Edir;
    [| discriminate].
  specialize (Hdir _ _ eq_refl).
  unfold bind at 1. rewrite Date_now_reads.
  unfold bind at 1. rewrite Date_now_reads. cbn [world trace].
  unfold JSON_stringify, historicalData at 1. cbn [serializeJSONProperty].
  unfold bind, ret, writeFileSync. rewrite perform_records. cbn [world trace].
  destruct (fst (fs_writeFileSync h _ _ _)); [| discriminate].
  intros [= <- <-].
  eexists _, _, _. split; [reflexivity |]. split; [reflexivity |].
  split.
  - cbn [trace]. rewrite artifacts_app, Hdir. reflexivity.
  - intros t0 Hfrozen. split; apply Hfrozen.
Qed.

Lemma pair_from_fst {A B} (x : A * B) (a : A) : fst x = a -> x = (a, snd x).
Proof. intros <-. destruct x; reflexivity. Qed.

(** C7, as the code has it. When every metric of the batch result is
    [null] or a finite number other than negative zero and
    [saveHistoricalData] returns, the file it wrote holds a document whose
    parse is the historical data that was serialized: its [timestamp] is the
    timestamp the file is named after and its [results] are the batch
    result that was passed in. *)
Theorem archive_round_trip
    (h : Host) (results : list URLResult) (s s' : State h) (path : string) :
  archivableBatch results = true ->
  saveHistoricalData h results s = (Normal path, s') ->
  exists timestamp date document,
    artifacts (trace s') = artifacts (trace s) ++ [(path, JSONFile document)] /\
    path = historyFilename timestamp /\
    JSON_stringify (historicalData timestamp date results) = Some document /\
    JSON_parse document = historicalData timestamp date results /\
    getProperty (JSON_parse document) "timestamp" = JString timestamp /\
    getProperty (JSON_parse document) "results" = resultsJS results.
Proof.
  intros Hok Hrun.
  destruct (saveHistoricalData_writes h results s s' path Hrun)
    as (t & t' & document & Hpath & Hdoc & Hart & _).
  destruct (historicalData_round_trip (toISOString h t) (toLocaleString h t') results Hok)
    as (document' & Hdoc' & Hparse).
  rewrite Hdoc in Hdoc'. injection Hdoc' as <-.
  exists (toISOString h t), (toLocaleString h t'), document.
  split; [exact Hart |]. split; [exact Hpath |]. split; [exact Hdoc |].
  split; [exact Hparse |]. rewrite Hparse. split; reflexivity.
Qed.

(** C7, on the batch result of the sample run over two URLs. *)
Lemma archive_round_trip_witness :
  exists timestamp date document,
    artifacts (trace (snd (saveHistoricalData Sample.host Sample.twoUrlBatch
                             (Sample.start 1000 []))))
      = artifacts (trace (Sample.start 1000 []))
        ++ [("historical-data/lighthouse_2025-01-01T00-00-00.json", JSONFile document)] /\
    "historical-data/lighthouse_2025-01-01T00-00-00.json" = historyFilename timestamp /\
    JSON_stringify (historicalData timestamp date Sample.twoUrlBatch) = Some document /\
    JSON_parse document = historicalData timestamp date Sample.twoUrlBatch /\
    getProperty (JSON_parse document) "timestamp" = JString timestamp /\
    getProperty (JSON_parse document) "results" = resultsJS Sample.twoUrlBatch.
Proof.
  apply (archive_round_trip Sample.host Sample.twoUrlBatch (Sample.start 1000 [])
           (snd (saveHistoricalData Sample.host Sample.twoUrlBatch (Sample.start 1000 [])))
           "historical-data/lighthouse_2025-01-01T00-00-00.json").
  - vm_compute. reflexivity.
  - apply pair_from_fst. vm_compute. reflexivity.
Defined.

(** C7 fails as stated. A report whose performance category has no score
    gives the performance NaN; the archive holds [null] in its place, so
    the results read back from the archive differ from the batch result
    that was written. *)
Lemma archive_round_trip_counterexample :
  List.map (fun r => performance (desktop r)) Sample.noScoreBatch = [Num NaN] /\
  exists path document,
    saveHistoricalData Sample.host Sample.noScoreBatch (Sample.start 1000 [])
      = (Normal path,
         snd (saveHistoricalData Sample.host Sample.noScoreBatch (Sample.start 1000 []))) /\
    artifacts (trace (snd (saveHistoricalData Sample.host Sample.noScoreBatch
                             (Sample.start 1000 []))))
      = [(path, JSONFile document)] /\
    getProperty (JSON_parse document) "results" <> resultsJS Sample.noScoreBatch.
Proof.
  split; [vm_compute; reflexivity |].
  exists "historical-data/lighthouse_2025-01-01T00-00-00.json".
  eexists. split; [apply pair_from_fst; vm_compute; reflexivity |].
  split; [vm_compute; reflexivity |].
  vm_compute. intros H. discriminate H.
Qed.

(** C9, as the code has it. The emitters are given the batch result only
    and read the clock themselves.  If the clock shows the same instant [t]
    at every reading, a completed run of the three emitters writes exactly
    three files whose names and contents are functions of the batch result
    and of [t]: the CSV text of the results (which does not depend on [t]),
    the HTML page of the results dated [t], and the serialized historical
    data stamped [t]; the three names carry the stamp of [t]. *)
Theorem emitters_under_frozen_clock
    (h : Host) (results : list URLResult) (t : Z) (s s' : State h) :
  frozenClock h t ->
  emitAll h results s = (Normal tt, s') ->
  exists document,
    JSON_stringify
      (historicalData (toISOString h t) (toLocaleString h t) results)
      = Some document /\
    artifacts (trace s') =
      artifacts (trace s) ++
      [(csvFilename (toISOString h t), TextFile (csvContent h results));
       (htmlFilename (toISOString h t),
        TextFile (htmlContent h (toLocaleString h t) results));
       (historyFilename (toISOString h t), JSONFile document)].
Proof.
  intros Hfrozen. unfold emitAll, bind at 1.
  pose proof (saveResultsToCSV_writes h results s) as [Hcsv _].
  destruct (saveResultsToCSV h results s) as [[p1 | e1] s1]; [| discriminate].
  cbn [snd] in Hcsv. unfold bind at 1.
  pose proof (generateSimplifiedHTMLEmail_writes h results s1) as [Hhtml _].
  destruct (generateSimplifiedHTMLEmail h results s1) as [[p2 | e2] s2]; [| discriminate].
  cbn [snd] in Hhtml. unfold bind at 1.
  destruct (saveHistoricalData h results s2) as [[p3 | e3] s3] eqn:Ehist; [| discriminate].
  unfold ret. intros [= <-].
  destruct (saveHistoricalData_writes h results s2 s3 p3 Ehist)
    as (t3 & t3' & document & Hpath & Hdoc & Hart & Hsame).
  destruct (Hsame t Hfrozen) as [-> ->].
  exists document. split; [exact Hdoc |].
  rewrite Hart, Hhtml, artifacts_app, Hcsv, artifacts_app, !Hfrozen, Hpath.
  cbn. rewrite <- !app_assoc. reflexivity.
Qed.

(** C9, on the sample batch and a host whose clock is stopped. *)
Lemma emitters_under_frozen_clock_witness :
  exists document,
    JSON_stringify
      (historicalData (Sample.iso 1735689600000) (Sample.localeDate 1735689600000)
         Sample.twoUrlBatch) = Some document /\
    artifacts (trace (snd (emitAll Sample.stoppedHost Sample.twoUrlBatch
                             Sample.stoppedStart))) =
      artifacts (trace Sample.stoppedStart) ++
      [(csvFilename (Sample.iso 1735689600000),
        TextFile (csvContent Sample.stoppedHost Sample.twoUrlBatch));
       (htmlFilename (Sample.iso 1735689600000),
        TextFile (htmlContent Sample.stoppedHost (Sample.localeDate 1735689600000)
                    Sample.twoUrlBatch));
       (historyFilename (Sample.iso 1735689600000), JSONFile document)].
Proof.
  apply (emitters_under_frozen_clock Sample.stoppedHost Sample.twoUrlBatch
           1735689600000 Sample.stoppedStart
           (snd (emitAll Sample.stoppedHost Sample.twoUrlBatch Sample.stoppedStart))).
  - intros w. reflexivity.
  - apply pair_from_fst. vm_compute. reflexivity.
Defined.

Lemma length_append (a b : string) :
  String.length (a +:+ b) = (String.length a + String.length b)%nat.
Proof.
  induction a as [| x a IH]; [reflexivity |].
  rewrite append_cons. cbn [String.length]. rewrite IH. reflexivity.
Qed.

Lemma append_cancel_r (s : string) :
  forall a b : string, a +:+ s = b +:+ s -> a = b.
Proof.
  induction a as [| x a IH]; intros [| y b] H.
  - reflexivity.
  - apply (f_equal String.length) in H.
    rewrite append_nil, append_cons in H. cbn [String.length] in H.
    rewrite length_append in H. lia.
  - apply (f_equal String.length) in H.
    rewrite append_nil, append_cons in H. cbn [String.length] in H.
    rewrite length_append in H. lia.
  - rewrite !append_cons in H. injection H as -> H.
    rewrite (IH b H). reflexivity.
Qed.

(** C9 fails as stated. On a host whose clock advances by one second at
    each reading, one run of the three emitters names the CSV file after
    00:00:00, the HTML file after 00:00:02 and the archive after 00:00:03,
    and dates the HTML page from a fourth reading: no single timestamp
    names the three artifacts. *)
Lemma emitters_timestamps_counterexample :
  fst (emitAll Sample.host Sample.twoUrlBatch (Sample.start 1000 [])) = Normal tt /\
  List.map fst
    (artifacts (trace (snd (emitAll Sample.host Sample.twoUrlBatch
                              (Sample.start 1000 [])))))
    = ["lighthouse_results_2025-01-01T00-00-00.csv";
       "lighthouse_email_2025-01-01T00-00-02.html";
       "historical-data/lighthouse_2025-01-01T00-00-03.json"] /\
  ~ exists iso,
      List.map fst
        (artifacts (trace (snd (emitAll Sample.host Sample.twoUrlBatch
                                  (Sample.start 1000 [])))))
      = [csvFilename iso; htmlFilename iso; historyFilename iso].
Proof.
  assert (Hnames :
    List.map fst
      (artifacts (trace (snd (emitAll Sample.host Sample.twoUrlBatch
                                (Sample.start 1000 [])))))
    = ["lighthouse_results_2025-01-01T00-00-00.csv";
       "lighthouse_email_2025-01-01T00-00-02.html";
       "historical-data/lighthouse_2025-01-01T00-00-03.json"])
    by (vm_compute; reflexivity).
  split; [vm_compute; reflexivity |]. split; [exact Hnames |].
  intros [iso H]. rewrite Hnames in H.
  pose proof (f_equal (fun l => nth 0 l EmptyString) H) as Hcsv.
  pose proof (f_equal (fun l => nth 1 l EmptyString) H) as Hhtml.
  cbn [nth] in Hcsv, Hhtml.
  assert (H0 : fileStamp iso = "2025-01-01T00-00-00").
  { apply (append_cancel_r ".csv"), (String.app_inj "lighthouse_results_").
    symmetry. exact Hcsv. }
  assert (H2 : fileStamp iso = "2025-01-01T00-00-02").
  { apply (append_cancel_r ".html"), (String.app_inj "lighthouse_email_").
    symmetry. exact Hhtml. }
  rewrite H0 in H2. discriminate H2.
Qed.

(** ** Extraction and configuration, in full *)


Lemma ToBoolean_false_iff (v : value) :
  ToBoolean v = false <-> takenForAbsent v.
Proof.
  unfold takenForAbsent. destruct v as [| | x]; cbn.
  - split; auto.
  - split; auto.
  - split.
    + intros H. right. right. exists x. split; [reflexivity |].
      destruct x; try discriminate; [right; eauto | left; reflexivity].
    + intros [H | [H | (y & [= <-] & [-> | [s ->]])]]; try discriminate; reflexivity.
Qed.

Lemma extractMetrics_timing (report : Report) (m : MetricSet) (name : string) :
  extractMetrics report = Normal m ->
  In name timingNames ->
  timingOf name m =
    if ToBoolean (auditNumericValue (audits report) name)
    then (if String.eqb name "cumulative-layout-shift"
          then auditNumericValue (audits report) name
          else Num (Math_round (ToNumber (auditNumericValue (audits report) name))))
    else Null.
Proof.
  unfold extractMetrics.
  destruct (scoreField _ "performance"); [| discriminate].
  destruct (scoreField _ "accessibility"); [| discriminate].
  destruct (scoreField _ "best-practices"); [| discriminate].
  destruct (scoreField _ "seo"); [| discriminate].
  cbn [andThen]. intros [= <-] Hin. simpl in Hin.
  destruct Hin as [<- | [<- | [<- | [<- | [<- | []]]]]]; reflexivity.
Qed.

(** X2. In an extracted metric set, a timing field is [null] exactly when
    the audit entry or its [numericValue] is missing, or the value is
    [null], [0], [-0] or NaN; otherwise the field is [Math.round] of the
    value, and for the cumulative layout shift the value itself.  So a
    present field is never the number zero taken from a zero source. *)
Theorem extractMetrics_timing_fields (report : Report) (m : MetricSet) (name : string) :
  extractMetrics report = Normal m ->
  In name timingNames ->
  (timingOf name m = Null <-> takenForAbsent (auditNumericValue (audits report) name)) /\
  (forall x, auditNumericValue (audits report) name = Num x -> truthy x = true ->
     timingOf name m =
       if String.eqb name "cumulative-layout-shift" then Num x
       else Num (Math_round x)).
Proof.
  intros Hm Hin. rewrite (extractMetrics_timing report m name Hm Hin). split.
  - rewrite <- ToBoolean_false_iff.
    destruct (ToBoolean (auditNumericValue (audits report) name)) eqn:Hb.
    + split; [| discriminate].
      destruct (String.eqb name "cumulative-layout-shift"); [| discriminate].
      intros Hnull. rewrite Hnull in Hb. discriminate Hb.
    + split; reflexivity.
  - intros x Hx Htruthy. rewrite Hx. cbn [ToBoolean ToNumber]. rewrite Htruthy.
    reflexivity.
Qed.

(** X2, at the blocking time 35.5 ms of the sample report. *)
Lemma extractMetrics_timing_fields_witness :
  (timingOf "total-blocking-time" (settle (Normal Sample.reportGood)) = Null <->
   takenForAbsent
     (auditNumericValue (audits Sample.reportGood) "total-blocking-time")) /\
  (forall x,
     auditNumericValue (audits Sample.reportGood) "total-blocking-time" = Num x ->
     truthy x = true ->
     timingOf "total-blocking-time" (settle (Normal Sample.reportGood)) =
       if String.eqb "total-blocking-time" "cumulative-layout-shift" then Num x
       else Num (Math_round x)).
Proof.
  apply (extractMetrics_timing_fields Sample.reportGood
           (settle (Normal Sample.reportGood)) "total-blocking-time").
  - vm_compute. reflexivity.
  - simpl. auto.
Defined.

(** The bytes of white space: none of them is a comma. *)
Lemma ws1_not_comma (a : ascii) : ws1 a = true -> a <> ","%char.
Proof. intros H ->. discriminate H. Qed.

Lemma ws2_not_comma (a b : ascii) :
  ws2 a b = true -> a <> ","%char /\ b <> ","%char.
Proof.
  intros H. split; intros ->; unfold ws2 in H; cbn in H;
    rewrite ?andb_false_r in H; discriminate H.
Qed.

Lemma ws3_not_comma (a b c : ascii) :
  ws3 a b c = true -> a <> ","%char /\ b <> ","%char /\ c <> ","%char.
Proof.
  intros H. repeat split; intros ->; unfold ws3 in H; cbn in H;
    rewrite ?andb_false_r, ?andb_false_l, ?orb_false_r, ?orb_false_l in H;
    discriminate H.
Qed.

(** [strip] removes a prefix that holds no comma. *)
Lemma strip_prefix (fwd : bool) (n : nat) :
  forall l : list ascii, (length l <= n)%nat ->
  exists pre, l = pre ++ strip fwd l /\ ~ In ","%char pre.
Proof.
  induction n as [| n IH]; intros l Hlen.
  - destruct l; [| cbn in Hlen; lia]. exists []. split; [reflexivity | intros []].
  - destruct l as [| a l1]; [exists []; split; [reflexivity | intros []] |].
    cbn [length] in Hlen. cbn [strip].
    destruct (ws1 a) eqn:H1.
    { destruct (IH l1 ltac:(lia)) as (pre & Hl & Hpre).
      exists (a :: pre). split; [cbn; f_equal; exact Hl |].
      intros [Ha | Hin]; [exact (ws1_not_comma _ H1 Ha) | exact (Hpre Hin)]. }
    destruct l1 as [| b l2]; [exists []; split; [reflexivity | intros []] |].
    cbn [length] in Hlen.
    destruct (if fwd then ws2 a b else ws2 b a) eqn:H2.
    { destruct (IH l2 ltac:(lia)) as (pre & Hl & Hpre).
      exists (a :: b :: pre). split; [cbn; do 2 f_equal; exact Hl |].
      assert (Hab : a <> ","%char /\ b <> ","%char).
      { destruct fwd; [apply (ws2_not_comma _ _ H2) |].
        destruct (ws2_not_comma _ _ H2); auto. }
      destruct Hab as [Ha Hb].
      intros [E | [E | Hin]]; [exact (Ha E) | exact (Hb E) | exact (Hpre Hin)]. }
    destruct l2 as [| c l3]; [exists []; split; [reflexivity | intros []] |].
    cbn [length] in Hlen.
    destruct (if fwd then ws3 a b c else ws3 c b a) eqn:H3.
    { destruct (IH l3 ltac:(lia)) as (pre & Hl & Hpre).
      exists (a :: b :: c :: pre). split; [cbn; do 3 f_equal; exact Hl |].
      assert (Habc : a <> ","%char /\ b <> ","%char /\ c <> ","%char).
      { destruct fwd; [apply (ws3_not_comma _ _ _ H3) |].
        destruct (ws3_not_comma _ _ _ H3) as (? & ? & ?); auto. }
      destruct Habc as (Ha & Hb & Hc).
      intros [E | [E | [E | Hin]]];
        [exact (Ha E) | exact (Hb E) | exact (Hc E) | exact (Hpre Hin)]. }
    exists []. split; [reflexivity | intros []].
Qed.

Lemma occurs_In (c : ascii) (s : string) :
  occurs c s = true <-> In c (list_ascii_of_string s).
Proof.
  induction s as [| d s IH]; cbn; [split; [discriminate | intros []] |].
  rewrite orb_true_iff, IH, Ascii.eqb_eq. reflexivity.
Qed.

(** What [trim] keeps of a text, and what it removes, in terms of commas:
    the bytes of [s] are a comma-free head, the bytes of [trim s], and a
    comma-free tail. *)
Lemma trim_middle (s : string) :
  exists head tail,
    list_ascii_of_string s = head ++ list_ascii_of_string (trim s) ++ tail /\
    ~ In ","%char head /\ ~ In ","%char tail.
Proof.
  unfold trim. rewrite list_ascii_of_string_of_list_ascii.
  set (l := list_ascii_of_string s).
  destruct (strip_prefix true (length l) l (le_n _)) as (head & Hl & Hhead).
  set (l1 := strip true l) in *.
  destruct (strip_prefix false (length (rev l1)) (rev l1) (le_n _))
    as (tail & Hr & Htail).
  exists head, (rev tail). split; [| split].
  - rewrite Hl at 1. f_equal.
    rewrite <- (rev_involutive l1), Hr at 1.
    rewrite rev_app_distr. reflexivity.
  - exact Hhead.
  - intros Hin. apply Htail. apply in_rev. exact Hin.
Qed.

Lemma trim_no_comma (s : string) :
  occurs "," s = false -> occurs "," (trim s) = false.
Proof.
  intros H. destruct (occurs "," (trim s)) eqn:E; [| reflexivity].
  apply occurs_In in E.
  destruct (trim_middle s) as (head & tail & Hs & _ & _).
  assert (Hin : In ","%char (list_ascii_of_string s)).
  { rewrite Hs. apply in_or_app. right. apply in_or_app. left. exact E. }
  apply occurs_In in Hin. congruence.
Qed.

Lemma trim_empty_no_comma (s : string) :
  trim s = EmptyString -> occurs "," s = false.
Proof.
  intros H. destruct (occurs "," s) eqn:E; [| reflexivity].
  apply occurs_In in E.
  destruct (trim_middle s) as (head & tail & Hs & Hhead & Htail).
  rewrite H in Hs. cbn in Hs. rewrite Hs in E.
  apply in_app_or in E as [E | E]; contradiction.
Qed.

(** The pieces of a split hold no separator. *)
Lemma split_pieces (sep : ascii) (s : string) :
  Forall (fun piece => occurs sep piece = false) (split sep s).
Proof.
  induction s as [| c s IH]; cbn [split]; [repeat constructor |].
  destruct (Ascii.eqb c sep) eqn:E; [constructor; [reflexivity | exact IH] |].
  destruct (split sep s) as [| p ps]; [repeat constructor; cbn; rewrite E; reflexivity |].
  inversion IH; subst. constructor; [| assumption].
  cbn. rewrite E. assumption.
Qed.

Lemma urls_without_comma (env : option string) (u : string) :
  In u (urls env) ->
  negb (Nat.eqb (String.length u) 0) = true /\ occurs "," u = false.
Proof.
  unfold urls. intros H. apply filter_In in H as [Hin Hne].
  apply in_map_iff in Hin as (piece & <- & Hpiece). split; [exact Hne |].
  apply trim_no_comma.
  pose proof (split_pieces "," (urlsFromEnv env)) as Hall.
  rewrite List.Forall_forall in Hall. apply Hall, Hpiece.
Qed.

(** X3. Every URL the script takes from the environment is non-empty and
    holds no comma. *)
Theorem urls_nonempty_without_comma (env : option string) (u : string) :
  In u (urls env) -> u <> EmptyString /\ occurs "," u = false.
Proof.
  intros H. destruct (urls_without_comma env u H) as [Hne Hcomma].
  split; [| exact Hcomma].
  intros Hempty. rewrite Hempty in Hne. discriminate Hne.
Qed.

(** X3, at a list of two URLs written with blanks. *)
Lemma urls_nonempty_without_comma_witness :
  "https://b.example" <> EmptyString /\ occurs "," "https://b.example" = false.
Proof.
  apply (urls_nonempty_without_comma (Some " https://a.example , https://b.example ,")).
  vm_compute. auto.
Defined.

(** The first check of the script is subsumed by the second: a variable
    that is empty or blank yields no URL. *)
Lemma blank_yields_no_url (env : option string) :
  String.eqb (urlsFromEnv env) EmptyString
  || String.eqb (trim (urlsFromEnv env)) EmptyString = true ->
  urls env = [].
Proof.
  intros H. apply orb_true_iff in H as [H | H]; apply String.eqb_eq in H.
  - unfold urls. rewrite H. reflexivity.
  - unfold urls. rewrite (split_whole "," _ (trim_empty_no_comma _ H)).
    cbn [List.map]. rewrite H. reflexivity.
Qed.

(** ** The calls of a run *)

Lemma executions_app (l1 l2 : list Event) :
  executions (l1 ++ l2) = executions l1 ++ executions l2.
Proof. apply omap_app. Qed.

Lemma readFileSync_reads (h : Host) (path : string) (s : State h) :
  readFileSync h path s =
    (fst (fs_readFileSync h path (world s)),
     {| world := snd (fs_readFileSync h path (world s)); trace := trace s |}).
Proof. unfold readFileSync. destruct (fs_readFileSync h path (world s)); reflexivity. Qed.

Lemma exec_records (h : Host) (cmd : string) (s : State h) :
  exec h cmd s =
    (fst (execAsync h cmd (world s)),
     {| world := snd (execAsync h cmd (world s));
        trace := trace s ++ [CallExec cmd] |}).
Proof. apply perform_records. Qed.

Lemma unlinkSync_records (h : Host) (path : string) (s : State h) :
  unlinkSync h path s =
    (fst (fs_unlinkSync h path (world s)),
     {| world := snd (fs_unlinkSync h path (world s));
        trace := trace s ++ [CallUnlink path] |}).
Proof. apply perform_records. Qed.

(** The calls of the cleanup in the handler of [runLighthouse]: the output
    file is deleted if it exists, and an error of the deletion is
    swallowed. *)
Lemma cleanup_records (h : Host) (path : string) (s : State h) :
  exists w,
    tryCatch h
      (bind h (existsSync h path)
         (fun found => if found then unlinkSync h path else ret h tt))
      (fun _ => ret h tt) s
    = (Normal tt,
       {| world := w;
          trace := trace s ++
                   (if fst (fs_existsSync h path (world s))
                    then [CallUnlink path] else []) |}).
Proof.
  unfold tryCatch, bind. rewrite existsSync_reads.
  destruct (fst (fs_existsSync h path (world s))).
  - rewrite unlinkSync_records. cbn [world trace].
    destruct (fst (fs_unlinkSync h path _)) as [[] | e]; eexists; reflexivity.
  - unfold ret. cbn [trace]. rewrite app_nil_r. eexists; reflexivity.
Qed.

(** X4. When the audit command fails with [e], [runLighthouse] throws [e]
    itself, whatever happens to the cleanup; the calls it has made are the
    command and, if the output file exists, its deletion. *)
Theorem runLighthouse_rethrows_command_error
    (h : Host) (url : string) (preset : Preset) (s : State h) (e : Error) :
  let now := fst (clock h (world s)) in
  let file := tempFile preset now in
  let cmd := command url preset file in
  let w := snd (clock h (world s)) in
  fst (execAsync h cmd w) = Throw e ->
  fst (runLighthouse h url preset s) = Throw e /\
  trace (snd (runLighthouse h url preset s)) =
    trace s ++ [CallExec cmd] ++
    (if fst (fs_existsSync h file (snd (execAsync h cmd w)))
     then [CallUnlink file] else []).
Proof.
  intros now file cmd w Hfail.
  assert (Hrun : exists w',
            runLighthouse h url preset s =
              (Throw e,
               {| world := w';
                  trace := trace s ++ [CallExec cmd] ++
                    (if fst (fs_existsSync h file (snd (execAsync h cmd w)))
                     then [CallUnlink file] else []) |})).
  { unfold runLighthouse. unfold bind at 1. rewrite Date_now_reads.
    fold now file cmd w. unfold tryCatch at 1. unfold bind at 1.
    rewrite exec_records. cbn [world trace]. rewrite Hfail.
    unfold bind at 1.
    match goal with |- context [tryCatch h ?b ?k ?s0] =>
      destruct (cleanup_records h file s0) as (w' & ->)
    end.
    unfold throw. cbn [trace world]. rewrite <- app_assoc. eexists; reflexivity. }
  destruct Hrun as (w' & ->). split; reflexivity.
Qed.

(** X4, on the scripted host when the first run of the program fails. *)
Lemma runLighthouse_rethrows_command_error_witness :
  fst (runLighthouse Sample.host "https://a.example" PresetMobile
         (Sample.start 1000 [None]))
    = Throw (mkError "Command failed: lighthouse") /\
  trace (snd (runLighthouse Sample.host "https://a.example" PresetMobile
                (Sample.start 1000 [None]))) =
    trace (Sample.start 1000 [None]) ++
    [CallExec (command "https://a.example" PresetMobile
                 (tempFile PresetMobile 1735689600000))] ++
    [].
Proof.
  apply (runLighthouse_rethrows_command_error Sample.host "https://a.example"
           PresetMobile (Sample.start 1000 [None])
           (mkError "Command failed: lighthouse")).
  reflexivity.
Defined.

(** X5. When [runLighthouse] returns a report, the calls it has made are
    the command and the deletion of the command's output file, and the
    report is the parse of a text. *)
Theorem runLighthouse_returns
    (h : Host) (url : string) (preset : Preset) (s s' : State h) (report : Report) :
  runLighthouse h url preset s = (Normal report, s') ->
  let file := tempFile preset (fst (clock h (world s))) in
  trace s' = trace s ++ [CallExec (command url preset file); CallUnlink file] /\
  exists text, parseReport h text = Normal report.
Proof.
  unfold runLighthouse. unfold bind at 1. rewrite Date_now_reads.
  set (file := tempFile preset (fst (clock h (world s)))).
  set (cmd := command url preset file).
  unfold tryCatch at 1. unfold bind at 1.
  rewrite exec_records. cbn [world trace].
  destruct (fst (execAsync h cmd _)) as [[] | e1].
  2: { unfold bind at 1.
       match goal with |- context [tryCatch h ?b ?k ?s0] =>
         destruct (cleanup_records h file s0) as (w' & ->)
       end. discriminate. }
  unfold bind at 1. rewrite readFileSync_reads. cbn [world trace].
  destruct (fst (fs_readFileSync h file _)) as [text | e2].
  2: { unfold bind at 1.
       match goal with |- context [tryCatch h ?b ?k ?s0] =>
         destruct (cleanup_records h file s0) as (w' & ->)
       end. discriminate. }
  unfold bind at 1. unfold lift.
  destruct (parseReport h text) as [r | e3] eqn:Hparse.
  2: { unfold bind at 1.
       match goal with |- context [tryCatch h ?b ?k ?s0] =>
         destruct (cleanup_records h file s0) as (w' & ->)
       end. discriminate. }
  unfold bind at 1. rewrite unlinkSync_records. cbn [world trace].
  destruct (fst (fs_unlinkSync h file _)) as [[] | e4].
  2: { unfold bind at 1.
       match goal with |- context [tryCatch h ?b ?k ?s0] =>
         destruct (cleanup_records h file s0) as (w' & ->)
       end. discriminate. }
  unfold ret. intros [= <- <-]. cbn [trace]. rewrite <- app_assoc.
  split; [reflexivity |]. exists text. exact Hparse.
Qed.

(** X5, on the scripted host when the run of the program succeeds. *)
Lemma runLighthouse_returns_witness :
  trace (snd (runLighthouse Sample.host "https://a.example" PresetDesktop
                (Sample.start 1000 [Some "good"]))) =
    trace (Sample.start 1000 [Some "good"]) ++
    [CallExec (command "https://a.example" PresetDesktop
                 (tempFile PresetDesktop 1735689600000));
     CallUnlink (tempFile PresetDesktop 1735689600000)] /\
  exists text, Sample.parse text = Normal Sample.reportGood.
Proof.
  apply (runLighthouse_returns Sample.host "https://a.example" PresetDesktop
           (Sample.start 1000 [Some "good"])
           (snd (runLighthouse Sample.host "https://a.example" PresetDesktop
                   (Sample.start 1000 [Some "good"])))
           Sample.reportGood).
  apply pair_from_fst. vm_compute. reflexivity.
Defined.

Lemma runLighthouse_calls
    (h : Host) (url : string) (preset : Preset) (s : State h) :
  exists c s',
    runLighthouse h url preset s = (c, s') /\
    executions (trace s') =
      executions (trace s) ++
      [command url preset (tempFile preset (fst (clock h (world s))))] /\
    artifacts (trace s') = artifacts (trace s).
Proof.
  unfold runLighthouse. unfold bind at 1. rewrite Date_now_reads.
  set (file := tempFile preset (fst (clock h (world s)))).
  set (cmd := command url preset file).
  assert (Hclean : forall (e : Error) (s0 : State h),
            executions (trace s0) = executions (trace s) ++ [cmd] ->
            artifacts (trace s0) = artifacts (trace s) ->
            exists c s',
              bind h
                (tryCatch h
                   (bind h (existsSync h file)
                      (fun found => if found then unlinkSync h file else ret h tt))
                   (fun _ => ret h tt))
                (fun _ => @throw h Report e) s0 = (c, s') /\
              executions (trace s') = executions (trace s) ++ [cmd] /\
              artifacts (trace s') = artifacts (trace s)).
  { intros e s0 Hx Ha. unfold bind at 1.
    destruct (cleanup_records h file s0) as (w' & ->).
    eexists _, _. split; [reflexivity |]. cbn [trace].
    rewrite executions_app, artifacts_app, Hx, Ha.
    destruct (fst (fs_existsSync h file (world s0))); cbn;
      rewrite !app_nil_r; split; reflexivity. }
  unfold tryCatch at 1. unfold bind at 1.
  rewrite exec_records. cbn [world trace].
  match goal with |- context [{| world := ?w1; trace := trace s ++ [CallExec cmd] |}] =>
    set (s1 := {| world := w1; trace := trace s ++ [CallExec cmd] |})
  end.
  assert (Hx1 : executions (trace s1) = executions (trace s) ++ [cmd])
    by (cbn [s1 trace]; rewrite executions_app; reflexivity).
  assert (Ha1 : artifacts (trace s1) = artifacts (trace s))
    by (cbn [s1 trace]; rewrite artifacts_app; cbn; apply app_nil_r).
  clearbody s1.
  destruct (fst (execAsync h cmd _)) as [[] | e1]; [| apply Hclean; assumption].
  unfold bind at 1. rewrite readFileSync_reads.
  match goal with |- context [{| world := ?w2; trace := trace s1 |}] =>
    set (s2 := {| world := w2; trace := trace s1 |})
  end.
  assert (Hx2 : executions (trace s2) = executions (trace s) ++ [cmd]) by exact Hx1.
  assert (Ha2 : artifacts (trace s2) = artifacts (trace s)) by exact Ha1.
  clearbody s2.
  destruct (fst (fs_readFileSync h file _)) as [text | e2]; [| apply Hclean; assumption].
  unfold bind at 1. unfold lift.
  destruct (parseReport h text) as [r | e3]; [| apply Hclean; assumption].
  unfold bind at 1. rewrite unlinkSync_records.
  match goal with |- context [{| world := ?w3; trace := trace s2 ++ [CallUnlink file] |}] =>
    set (s3 := {| world := w3; trace := trace s2 ++ [CallUnlink file] |})
  end.
  assert (Hx3 : executions (trace s3) = executions (trace s) ++ [cmd])
    by (cbn [s3 trace]; rewrite executions_app, Hx2; cbn; apply app_nil_r).
  assert (Ha3 : artifacts (trace s3) = artifacts (trace s))
    by (cbn [s3 trace]; rewrite artifacts_app, Ha2; cbn; apply app_nil_r).
  clearbody s3.
  destruct (fst (fs_unlinkSync h file _)) as [[] | e4]; [| apply Hclean; assumption].
  unfold ret. eexists _, _. split; [reflexivity |]. split; assumption.
Qed.

(** Whatever happens, one call of [runLighthouse] runs exactly one command
    and writes no file. *)
Lemma runLighthouse_one_command
    (h : Host) (url : string) (preset : Preset) (s : State h) :
  executions (trace (snd (runLighthouse h url preset s))) =
    executions (trace s) ++
    [command url preset (tempFile preset (fst (clock h (world s))))] /\
  artifacts (trace (snd (runLighthouse h url preset s))) = artifacts (trace s).
Proof.
  destruct (runLighthouse_calls h url preset s) as (c & s' & -> & Hx & Ha).
  split; assumption.
Qed.

Lemma analyzeUrl_commands (h : Host) (u : string) (s : State h) :
  exists times,
    executions (trace (snd (analyzeUrl h u s))) =
      executions (trace s) ++ auditCommands u times /\
    artifacts (trace (snd (analyzeUrl h u s))) = artifacts (trace s).
Proof.
  rewrite analyzeUrl_settles. cbn [snd].
  destruct (runLighthouse_one_command h u PresetMobile s) as [Hx1 Ha1].
  destruct (runLighthouse_one_command h u PresetDesktop
              (snd (runLighthouse h u PresetMobile s))) as [Hx2 Ha2].
  eexists (_, _). rewrite Hx2, Hx1, Ha2, Ha1, <- app_assoc.
  split; reflexivity.
Qed.

Lemma analyzeLoop_commands (h : Host) (urls : list string) :
  forall (acc : list URLResult) (s : State h),
  exists times,
    length times = length urls /\
    executions (trace (snd (analyzeLoop h urls acc s))) =
      executions (trace s) ++ concat (zip_with auditCommands urls times) /\
    artifacts (trace (snd (analyzeLoop h urls acc s))) = artifacts (trace s).
Proof.
  induction urls as [| u rest IH]; intros acc s.
  - exists []. cbn. rewrite app_nil_r. auto.
  - cbn [analyzeLoop]. unfold bind.
    destruct (analyzeUrl_commands h u s) as (t & Hx & Ha).
    rewrite analyzeUrl_settles in Hx, Ha |- *. cbn [snd] in Hx, Ha.
    match goal with |- context [analyzeLoop h rest ?acc1 ?s1] =>
      destruct (IH acc1 s1) as (times & Hlen & Hxs & Has)
    end.
    exists (t :: times). split; [cbn; rewrite Hlen; reflexivity |].
    rewrite Hxs, Has, Hx, Ha, <- app_assoc. split; reflexivity.
Qed.

Lemma auditCommands_count (urls : list string) :
  forall times : list (Z * Z),
  length times = length urls ->
  length (concat (zip_with auditCommands urls times)) = (2 * length urls)%nat.
Proof.
  induction urls as [| u rest IH]; intros [| t times] Hlen; try discriminate; [reflexivity |].
  cbn [zip_with concat]. rewrite length_app. cbn [auditCommands length].
  rewrite (IH times); [lia |]. cbn in Hlen. lia.
Qed.


(** What [saveHistoricalData] does in every case: it runs no command. *)
Lemma saveHistoricalData_no_command (h : Host) (results : list URLResult) (s : State h) :
  exists c s',
    saveHistoricalData h results s = (c, s') /\
    executions (trace s') = executions (trace s).
Proof.
  unfold saveHistoricalData, bind at 1. rewrite existsSync_reads.
  set (s1 := {| world := snd (fs_existsSync h historyDir (world s)); trace := trace s |}).
  assert (Hs1 : executions (trace s1) = executions (trace s)) by reflexivity.
  clearbody s1.
  unfold bind at 1.
  assert (Hdir : forall c s2,
            (if fst (fs_existsSync h historyDir (world s)) then ret h tt
             else mkdirSync h historyDir) s1 = (c, s2) ->
            executions (trace s2) = executions (trace s)).
  { intros c s2. destruct (fst (fs_existsSync h historyDir (world s))).
    - unfold ret. intros [= _ <-]. exact Hs1.
    - unfold mkdirSync. rewrite perform_records. intros [= _ <-].
      cbn [trace]. rewrite executions_app, Hs1. cbn. apply app_nil_r. }
  destruct ((if fst (fs_existsSync h historyDir (world s)) then ret h tt
             else mkdirSync h historyDir) s1) as [[[] | e] s2] eqn:Edir.
  2: { eexists _, _. split; [reflexivity |]. exact (Hdir _ _ eq_refl). }
  specialize (Hdir _ _ eq_refl).
  unfold bind at 1. rewrite Date_now_reads.
  unfold bind at 1. rewrite Date_now_reads. cbn [world trace].
  unfold JSON_stringify, historicalData at 1. cbn [serializeJSONProperty].
  unfold bind, ret, writeFileSync. rewrite perform_records. cbn [world trace].
  destruct (fst (fs_writeFileSync h _ _ _));
    (eexists _, _; split; [reflexivity |]);
    cbn [trace]; rewrite executions_app, Hdir; cbn; apply app_nil_r.
Qed.

(** The three emitters run no command. *)
Lemma emitAll_no_command (h : Host) (results : list URLResult) (s : State h) :
  executions (trace (snd (emitAll h results s))) = executions (trace s).
Proof.
  assert (H : exists c s', emitAll h results s = (c, s') /\
                           executions (trace s') = executions (trace s)).
  { unfold emitAll, bind at 1.
    pose proof (saveResultsToCSV_writes h results s) as [Hcsv _].
    destruct (saveResultsToCSV h results s) as [[p1 | e1] s1]; cbn [snd] in Hcsv.
    2: { eexists _, _. split; [reflexivity |].
         rewrite Hcsv, executions_app. cbn. apply app_nil_r. }
    unfold bind at 1.
    pose proof (generateSimplifiedHTMLEmail_writes h results s1) as [Hhtml _].
    destruct (generateSimplifiedHTMLEmail h results s1) as [[p2 | e2] s2];
      cbn [snd] in Hhtml.
    2: { eexists _, _. split; [reflexivity |].
         rewrite Hhtml, executions_app, Hcsv, executions_app. cbn.
         rewrite !app_nil_r. reflexivity. }
    unfold bind at 1.
    destruct (saveHistoricalData_no_command h results s2) as (c & s3 & -> & Hx).
    assert (Hx3 : executions (trace s3) = executions (trace s)).
    { rewrite Hx, Hhtml, executions_app, Hcsv, executions_app. cbn.
      rewrite !app_nil_r. reflexivity. }
    destruct c; unfold ret; eexists _, _; (split; [reflexivity | exact Hx3]). }
  destruct H as (c & s' & -> & Hx). exact Hx.
Qed.

(** X7. Whatever the variable holds, the script runs exactly two commands
    per configured URL (none when the configuration is rejected). *)
Theorem main_runs_two_commands_per_url (h : Host) (env : option string) (s : State h) :
  length (executions (trace (snd (main h env s)))) =
    (length (executions (trace s)) + 2 * length (urls env))%nat.
Proof.
  destruct (urls env) as [| u rest] eqn:Hurls.
  - unfold main. rewrite Hurls. destruct (_ || _); cbn; lia.
  - unfold main.
    destruct (String.eqb (urlsFromEnv env) EmptyString
              || String.eqb (trim (urlsFromEnv env)) EmptyString) eqn:Hblank.
    { rewrite (blank_yields_no_url env Hblank) in Hurls. discriminate. }
    rewrite Hurls. cbn [length Nat.eqb]. unfold bind.
    destruct (analyzeLoop_commands h (u :: rest) [] s) as (times & Hlen & Hx & _).
    assert (Hcount : length (executions (trace (snd (analyzeUrls h (u :: rest) s)))) =
                     (length (executions (trace s)) + 2 * length (u :: rest))%nat).
    { unfold analyzeUrls. rewrite Hx, length_app. f_equal.
      apply auditCommands_count, Hlen. }
    clear Hx Hlen times.
    destruct (analyzeLoop_returns h (u :: rest) [] s)
      as (results & s1 & Hrun & _).
    change (analyzeUrls h (u :: rest) s = (Normal results, s1)) in Hrun.
    rewrite Hrun in Hcount |- *. cbn [snd] in Hcount. cbv beta iota.
    pose proof (emitAll_no_command h results s1) as Hemit.
    destruct (emitAll h results s1) as [[[] | e] s2]; cbn [snd] in Hemit |- *;
      rewrite Hemit, Hcount; reflexivity.
Qed.

(** X8. When the configuration yields at least one URL, the exit code of
    the script is decided by the emitters alone: [analyzeUrls] returns its
    results whatever the audits did, and the script exits with 0 if the
    three emitters complete and with 1 if one of them throws. *)
Theorem main_exit_code (h : Host) (env : option string) (s : State h) :
  urls env <> [] ->
  exists results s1,
    analyzeUrls h (urls env) s = (Normal results, s1) /\
    List.map url results = urls env /\
    main h env s =
      (match fst (emitAll h results s1) with Normal _ => 0 | Throw _ => 1 end,
       snd (emitAll h results s1)).
Proof.
  intros Hne.
  destruct (analyzeLoop_returns h (urls env) [] s)
    as (results & s1 & Hrun & Hmap).
  change (analyzeUrls h (urls env) s = (Normal results, s1)) in Hrun.
  exists results, s1. split; [exact Hrun |]. split; [exact Hmap |].
  unfold main.
  destruct (String.eqb (urlsFromEnv env) EmptyString
            || String.eqb (trim (urlsFromEnv env)) EmptyString) eqn:Hblank.
  { elim Hne. exact (blank_yields_no_url env Hblank). }
  destruct (urls env) as [| u rest] eqn:Hurls; [congruence |].
  cbn [length Nat.eqb]. unfold bind. rewrite Hrun. cbv beta iota.
  destruct (emitAll h results s1) as [[[] | e] s2]; reflexivity.
Qed.

(** X8, on a run in which both audits of the only URL fail. *)
Lemma main_exit_code_witness :
  exists results s1,
    analyzeUrls Sample.host (urls (Some "https://a.example")) (Sample.start 1000 [])
      = (Normal results, s1) /\
    List.map url results = urls (Some "https://a.example") /\
    main Sample.host (Some "https://a.example") (Sample.start 1000 []) =
      (match fst (emitAll Sample.host results s1) with Normal _ => 0 | Throw _ => 1 end,
       snd (emitAll Sample.host results s1)).
Proof.
  apply (main_exit_code Sample.host (Some "https://a.example") (Sample.start 1000 [])).
  vm_compute. discriminate.
Defined.

(** ** The results of a run and what is written from them *)

Lemma extracted_has_shape (report : Report) (m : MetricSet) :
  extractMetrics report = Normal m -> extractedShape m.
Proof.
  intros Hm. split; [| split].
  - revert Hm. unfold extractMetrics.
    destruct (scoreField _ "performance"); [| discriminate].
    destruct (scoreField _ "accessibility"); [| discriminate].
    destruct (scoreField _ "best-practices"); [| discriminate].
    destruct (scoreField _ "seo"); [| discriminate].
    cbn [andThen]. intros [= <-]. reflexivity.
  - intros name Hin. revert Hm. unfold extractMetrics, scoreField, categoryScore.
    destruct (categories report !! "performance"); [| discriminate].
    destruct (categories report !! "accessibility"); [| discriminate].
    destruct (categories report !! "best-practices"); [| discriminate].
    destruct (categories report !! "seo"); [| discriminate].
    cbn [andThen]. intros [= <-]. simpl in Hin.
    destruct Hin as [<- | [<- | [<- | [<- | []]]]]; eexists; reflexivity.
  - intros name Hin. rewrite (extractMetrics_timing report m name Hm Hin).
    destruct (ToBoolean (auditNumericValue (audits report) name)) eqn:Hb;
      [| discriminate].
    destruct (String.eqb name "cumulative-layout-shift"); [| discriminate].
    intros Hu. rewrite Hu in Hb. discriminate Hb.
Qed.

Lemma settle_has_shape (outcome : Completion Report) :
  failedShape (settle outcome) \/ extractedShape (settle outcome).
Proof.
  assert (Hfailed : forall e, failedShape (failedMetrics e)).
  { intros e. split; [repeat constructor | eexists; reflexivity]. }
  destruct outcome as [report | e]; cbn [settle]; [| left; apply Hfailed].
  destruct (extractMetrics report) as [m | e] eqn:Hm; [| left; apply Hfailed].
  right. exact (extracted_has_shape report m Hm).
Qed.

Lemma analyzeLoop_shapes (h : Host) (urls : list string) :
  forall (acc : list URLResult) (s : State h),
  let P := fun r =>
    (failedShape (desktop r) \/ extractedShape (desktop r)) /\
    (failedShape (mobile r) \/ extractedShape (mobile r)) in
  List.Forall P acc ->
  exists results s',
    analyzeLoop h urls acc s = (Normal results, s') /\ List.Forall P results.
Proof.
  induction urls as [| u rest IH]; intros acc s P Hacc.
  - exists acc, s. split; [reflexivity | exact Hacc].
  - cbn [analyzeLoop]. unfold bind at 1. rewrite analyzeUrl_settles.
    apply IH. apply List.Forall_app. split; [exact Hacc |].
    constructor; [| constructor]. split; apply settle_has_shape.
Qed.

Lemma analyzeUrls_shapes
    (h : Host) (urls : list string) (s s' : State h) (results : list URLResult) :
  analyzeUrls h urls s = (Normal results, s') ->
  List.Forall
    (fun r => (failedShape (desktop r) \/ extractedShape (desktop r)) /\
              (failedShape (mobile r) \/ extractedShape (mobile r))) results.
Proof.
  intros Hrun.
  destruct (analyzeLoop_shapes h urls [] s (List.Forall_nil _))
    as (results' & s'' & Hloop & Hall).
  unfold analyzeUrls in Hrun. rewrite Hloop in Hrun. injection Hrun as <- <-.
  exact Hall.
Qed.

(** X9. In every result [analyzeUrls] returns, the metric set of each
    profile has one of two shapes: either nine [null] fields together with
    an error message, or no error message, four scores that are numbers and
    timing fields that are numbers or [null].  No field is ever
    [undefined], and a score is [null] only beside an error message. *)
Theorem analyzeUrls_result_shapes
    (h : Host) (urls : list string) (s s' : State h) (results : list URLResult)
    (r : URLResult) (preset : Preset) :
  analyzeUrls h urls s = (Normal results, s') ->
  In r results ->
  failedShape (metricsFor preset r) \/ extractedShape (metricsFor preset r).
Proof.
  intros Hrun Hin.
  pose proof (analyzeUrls_shapes h urls s s' results Hrun) as Hall.
  rewrite List.Forall_forall in Hall. destruct (Hall r Hin) as [Hd Hm].
  destruct preset; assumption.
Qed.

(** X9, on the second result of the sample run, whose mobile audit failed. *)
Lemma analyzeUrls_result_shapes_witness :
  failedShape
    (metricsFor PresetMobile
       (List.last Sample.twoUrlBatch
          {| url := EmptyString;
             desktop := failedMetrics (mkError EmptyString);
             mobile := failedMetrics (mkError EmptyString) |})) \/
  extractedShape
    (metricsFor PresetMobile
       (List.last Sample.twoUrlBatch
          {| url := EmptyString;
             desktop := failedMetrics (mkError EmptyString);
             mobile := failedMetrics (mkError EmptyString) |})).
Proof.
  apply (analyzeUrls_result_shapes Sample.host
           ["https://a.example"; "https://b.example"]
           (Sample.start 1000 [Some "good"; Some "good"; None; Some "zero"])
           (snd (analyzeUrls Sample.host ["https://a.example"; "https://b.example"]
                   (Sample.start 1000 [Some "good"; Some "good"; None; Some "zero"])))
           Sample.twoUrlBatch).
  - apply pair_from_fst. vm_compute. reflexivity.
  - vm_compute. right. left. reflexivity.
Defined.

Lemma serialize_any_value (v : value) :
  v <> Undefined ->
  exists j, serializeJSONProperty (valueJS v) = Some j /\
            JSON_parse j = valueJS (readBackValue v).
Proof.
  destruct v as [| | [s | s | | s m e]]; intros H; try congruence;
    eexists; split; reflexivity.
Qed.

Lemma serialize_any_metricSet (m : MetricSet) :
  defined m ->
  exists j, serializeJSONProperty (metricSetJS m) = Some j /\
            JSON_parse j = metricSetJS (readBackMetrics m).
Proof.
  destruct m as [v1 v2 v3 v4 v5 v6 v7 v8 v9 err].
  unfold defined, metricFields.
  cbn [performance accessibility bestPractices seo fcp lcp tbt cls si].
  intros H.
  repeat match goal with
         | H : List.Forall _ (_ :: _) |- _ => inversion H; clear H; subst
         end.
  destruct (serialize_any_value v1) as (j1 & S1 & P1); [assumption |].
  destruct (serialize_any_value v2) as (j2 & S2 & P2); [assumption |].
  destruct (serialize_any_value v3) as (j3 & S3 & P3); [assumption |].
  destruct (serialize_any_value v4) as (j4 & S4 & P4); [assumption |].
  destruct (serialize_any_value v5) as (j5 & S5 & P5); [assumption |].
  destruct (serialize_any_value v6) as (j6 & S6 & P6); [assumption |].
  destruct (serialize_any_value v7) as (j7 & S7 & P7); [assumption |].
  destruct (serialize_any_value v8) as (j8 & S8 & P8); [assumption |].
  destruct (serialize_any_value v9) as (j9 & S9 & P9); [assumption |].
  unfold metricSetJS, readBackMetrics.
  cbn [performance accessibility bestPractices seo fcp lcp tbt cls si error].
  destruct err as [msg |]; cbn [app serializeJSONProperty];
    rewrite S1, S2, S3, S4, S5, S6, S7, S8, S9;
    (eexists; split; [reflexivity |]);
    cbn [JSON_parse List.map fst snd];
    rewrite P1, P2, P3, P4, P5, P6, P7, P8, P9; reflexivity.
Qed.

Lemma serialize_any_results (results : list URLResult) :
  List.Forall (fun r => defined (desktop r) /\ defined (mobile r)) results ->
  List.map JSON_parse
    (List.map (fun e => default json_null (serializeJSONProperty e))
       (List.map urlResultJS results))
  = List.map urlResultJS (List.map readBackResult results).
Proof.
  induction results as [| r rest IH]; intros H; [reflexivity |].
  inversion H as [| ? ? [Hd Hm] Hrest]; subst.
  destruct (serialize_any_metricSet _ Hd) as (jd & Sd & Pd).
  destruct (serialize_any_metricSet _ Hm) as (jm & Sm & Pm).
  cbn [List.map]. rewrite (IH Hrest). f_equal.
  unfold urlResultJS at 1. cbn [serializeJSONProperty]. rewrite Sd, Sm.
  cbn [from_option id JSON_parse List.map fst snd]. rewrite Pd, Pm. reflexivity.
Qed.

Lemma shape_defined (m : MetricSet) :
  failedShape m \/ extractedShape m -> defined m.
Proof.
  intros [[Hall _] | (_ & Hscores & Htimings)].
  - unfold defined. unfold allAbsent in Hall.
    eapply List.Forall_impl; [| exact Hall]. intros v ->. discriminate.
  - unfold defined, metricFields.
    destruct (Hscores "performance") as (x1 & H1); [simpl; auto |].
    destruct (Hscores "accessibility") as (x2 & H2); [simpl; auto |].
    destruct (Hscores "best-practices") as (x3 & H3); [simpl; auto |].
    destruct (Hscores "seo") as (x4 & H4); [simpl; auto 6 |].
    cbn in H1, H2, H3, H4. rewrite H1, H2, H3, H4.
    pose proof (Htimings "first-contentful-paint" ltac:(simpl; auto)) as T1.
    pose proof (Htimings "largest-contentful-paint" ltac:(simpl; auto)) as T2.
    pose proof (Htimings "total-blocking-time" ltac:(simpl; auto)) as T3.
    pose proof (Htimings "cumulative-layout-shift" ltac:(simpl; auto 6)) as T4.
    pose proof (Htimings "speed-index" ltac:(simpl; auto 7)) as T5.
    cbn in T1, T2, T3, T4, T5.
    repeat constructor; try discriminate; assumption.
Qed.

(** X10. Whatever the audits returned, the historical data of the results
    of [analyzeUrls] can be serialized, and parsing the document gives the
    historical data of the same results in which every NaN or infinite
    metric is [null] and every negative zero is zero; the timestamp, the
    date, the URLs, the finite metrics and the error messages are
    unchanged. *)
Theorem archive_reads_back
    (h : Host) (urls : list string) (s s' : State h) (results : list URLResult)
    (timestamp date : string) :
  analyzeUrls h urls s = (Normal results, s') ->
  exists document,
    JSON_stringify (historicalData timestamp date results) = Some document /\
    JSON_parse document =
      historicalData timestamp date (List.map readBackResult results).
Proof.
  intros Hrun.
  assert (Hdef : List.Forall (fun r => defined (desktop r) /\ defined (mobile r)) results).
  { eapply List.Forall_impl; [| exact (analyzeUrls_shapes h urls s s' results Hrun)].
    intros r [Hd Hm]. split; apply shape_defined; assumption. }
  unfold JSON_stringify, historicalData, resultsJS.
  cbn [serializeJSONProperty]. eexists; split; [reflexivity |].
  cbn [JSON_parse List.map fst snd]. rewrite (serialize_any_results results Hdef).
  reflexivity.
Qed.

(** X10, on the run whose reports have no performance score. *)
Lemma archive_reads_back_witness :
  exists document,
    JSON_stringify
      (historicalData "2025-01-01T00:00:00.000Z" "2025-01-01T00:00" Sample.noScoreBatch)
      = Some document /\
    JSON_parse document =
      historicalData "2025-01-01T00:00:00.000Z" "2025-01-01T00:00"
        (List.map readBackResult Sample.noScoreBatch).
Proof.
  apply (archive_reads_back Sample.host ["https://a.example"]
           (Sample.start 1000 [Some "no-score"; Some "no-score"])
           (snd (analyzeUrls Sample.host ["https://a.example"]
                   (Sample.start 1000 [Some "no-score"; Some "no-score"])))).
  apply pair_from_fst. vm_compute. reflexivity.
Defined.

Lemma replaceColonDot_removes (c : ascii) (s : string) :
  c = ":"%char \/ c = "."%char -> occurs c (replaceColonDot s) = false.
Proof.
  intros Hc. unfold replaceColonDot.
  induction s as [| d s IH]; [reflexivity |].
  cbn [mapChars occurs]. rewrite IH, orb_false_r.
  destruct (Ascii.eqb d ":" || Ascii.eqb d ".") eqn:E.
  - destruct Hc as [-> | ->]; reflexivity.
  - apply orb_false_iff in E as [E1 E2].
    destruct Hc as [-> | ->]; assumption.
Qed.

Lemma occurs_prefix (c : ascii) (s : string) :
  forall n, occurs c (String.substring 0 n s) = true -> occurs c s = true.
Proof.
  induction s as [| d s IH]; intros [| n]; cbn; try discriminate.
  intros H. apply orb_true_iff in H as [H | H].
  - rewrite H. reflexivity.
  - rewrite (IH n H). apply orb_true_r.
Qed.

Lemma length_prefix (s : string) :
  forall n, String.length (String.substring 0 n s) = Nat.min n (String.length s).
Proof.
  induction s as [| d s IH]; intros [| n]; cbn; try reflexivity.
  rewrite IH. reflexivity.
Qed.

Lemma length_mapChars (f : ascii -> ascii) (s : string) :
  String.length (mapChars f s) = String.length s.
Proof. induction s as [| d s IH]; cbn; [reflexivity | rewrite IH; reflexivity]. Qed.

Lemma fileStamp_clean (c : ascii) (iso : string) :
  c = ":"%char \/ c = "."%char -> occurs c (fileStamp iso) = false.
Proof.
  intros Hc. unfold fileStamp, sliceEnd.
  destruct (occurs c (String.substring 0 _ (replaceColonDot iso))) eqn:E; [| reflexivity].
  apply occurs_prefix in E. rewrite (replaceColonDot_removes c iso Hc) in E.
  discriminate E.
Qed.

(** X11. Whatever text the runtime gives for the time, the stamp put in a
    file name is that text without its last five characters and holds
    neither a colon nor a period; so the names of the three artifacts hold
    no colon. *)
Theorem artifact_names_are_safe (iso : string) :
  String.length (fileStamp iso) = (String.length iso - 5)%nat /\
  occurs ":" (fileStamp iso) = false /\
  occurs "." (fileStamp iso) = false /\
  occurs ":" (csvFilename iso) = false /\
  occurs ":" (htmlFilename iso) = false /\
  occurs ":" (historyFilename iso) = false.
Proof.
  pose proof (fileStamp_clean ":" iso (or_introl eq_refl)) as Hcolon.
  split; [| split; [exact Hcolon | split; [apply fileStamp_clean; right; reflexivity |]]].
  - unfold fileStamp, sliceEnd, replaceColonDot.
    rewrite length_prefix, length_mapChars. lia.
  - unfold csvFilename, htmlFilename, historyFilename, historyDir.
    rewrite !occurs_append, Hcolon. repeat split; reflexivity.
Qed.

Lemma mkdirSync_records (h : Host) (path : string) (s : State h) :
  mkdirSync h path s =
    (fst (fs_mkdirSync h path (world s)),
     {| world := snd (fs_mkdirSync h path (world s));
        trace := trace s ++ [CallMkdir path] |}).
Proof. apply perform_records. Qed.

(** X12. [saveHistoricalData] creates the archive directory only when it
    does not exist, and before it writes: when it returns, the calls it has
    made are the creation of the directory, if the directory was missing,
    followed by the writing of the file it returns the path of; and when
    the creation fails, its error is thrown and nothing is written. *)
Theorem saveHistoricalData_directory
    (h : Host) (results : list URLResult) (s : State h) :
  let found := fst (fs_existsSync h historyDir (world s)) in
  let w := snd (fs_existsSync h historyDir (world s)) in
  (forall path s',
     saveHistoricalData h results s = (Normal path, s') ->
     exists content,
       trace s' =
         trace s ++ (if found then [] else [CallMkdir historyDir])
                 ++ [CallWriteFile path content]) /\
  (forall e,
     found = false -> fst (fs_mkdirSync h historyDir w) = Throw e ->
     fst (saveHistoricalData h results s) = Throw e /\
     trace (snd (saveHistoricalData h results s)) = trace s ++ [CallMkdir historyDir]).
Proof.
  intros found w. split.
  - intros path s'. unfold saveHistoricalData, bind at 1. rewrite existsSync_reads.
    fold found w. unfold bind at 1.
    destruct found.
    + unfold ret at 1. unfold bind at 1. rewrite Date_now_reads.
      unfold bind at 1. rewrite Date_now_reads. cbn [world trace].
      unfold JSON_stringify, historicalData at 1. cbn [serializeJSONProperty].
      unfold bind, ret, writeFileSync. rewrite perform_records. cbn [world trace].
      destruct (fst (fs_writeFileSync h _ _ _)); [| discriminate].
      intros [= <- <-]. eexists. reflexivity.
    + rewrite mkdirSync_records. cbn [world trace].
      destruct (fst (fs_mkdirSync h historyDir w)) as [[] | e]; [| discriminate].
      unfold bind at 1. rewrite Date_now_reads.
      unfold bind at 1. rewrite Date_now_reads. cbn [world trace].
      unfold JSON_stringify, historicalData at 1. cbn [serializeJSONProperty].
      unfold bind, ret, writeFileSync. rewrite perform_records. cbn [world trace].
      destruct (fst (fs_writeFileSync h _ _ _)); [| discriminate].
      intros [= <- <-]. eexists. cbn [trace]. rewrite <- app_assoc. reflexivity.
  - intros e Hfound Hfail.
    assert (Hrun : exists w',
              saveHistoricalData h results s =
                (Throw e, {| world := w'; trace := trace s ++ [CallMkdir historyDir] |})).
    { unfold saveHistoricalData, bind at 1. rewrite existsSync_reads.
      fold found w. rewrite Hfound. unfold bind at 1.
      rewrite mkdirSync_records. cbn [world trace]. rewrite Hfail.
      eexists. reflexivity. }
    destruct Hrun as (w' & ->). split; reflexivity.
Qed.

(** X12, on the scripted host, where the directory never exists. *)
Lemma saveHistoricalData_directory_witness :
  exists content,
    trace (snd (saveHistoricalData Sample.host Sample.twoUrlBatch (Sample.start 1000 [])))
    = trace (Sample.start 1000 []) ++ [CallMkdir historyDir]
      ++ [CallWriteFile "historical-data/lighthouse_2025-01-01T00-00-00.json" content].
Proof.
  destruct (saveHistoricalData_directory Sample.host Sample.twoUrlBatch
              (Sample.start 1000 [])) as [Hok _].
  apply (Hok "historical-data/lighthouse_2025-01-01T00-00-00.json"
             (snd (saveHistoricalData Sample.host Sample.twoUrlBatch
                     (Sample.start 1000 [])))).
  apply pair_from_fst. vm_compute. reflexivity.
Defined.

Lemma code_digit (k : N) : (k < 10)%N -> (code (digit (N.to_nat k)) - 48 = k)%N.
Proof.
  intros Hk. unfold code, digit.
  change (ascii_of_nat (48 + N.to_nat k)) with (ascii_of_N (N.of_nat (48 + N.to_nat k))).
  rewrite N_ascii_embedding by lia. lia.
Qed.

(** Reading the digits that [digitsOf] puts before [acc] gives [n]. *)
Lemma readDecimal_digitsOf (fuel : nat) :
  forall (n : N) (acc : string),
  (n < 2 ^ N.of_nat fuel)%N ->
  readDecimal 0 (digitsOf fuel n acc) = readDecimal n acc.
Proof.
  induction fuel as [| fuel IH]; intros n acc Hn.
  - cbn in Hn. assert (n = 0%N) by lia. subst n. reflexivity.
  - cbn [digitsOf].
    assert (Hmod : (n mod 10 < 10)%N) by (apply N.mod_lt; lia).
    destruct (n <? 10)%N eqn:E.
    + apply N.ltb_lt in E. rewrite N.mod_small by exact E.
      cbn [readDecimal]. rewrite code_digit by exact E. reflexivity.
    + apply N.ltb_ge in E.
      rewrite IH.
      * cbn [readDecimal]. rewrite code_digit by exact Hmod.
        f_equal. pose proof (N.div_mod n 10 ltac:(lia)). lia.
      * rewrite Nat2N.inj_succ, N.pow_succ_r' in Hn.
        apply N.Div0.div_lt_upper_bound; lia.
Qed.

Lemma readDecimal_decimalN (n : N) : readDecimal 0 (decimalN n) = n.
Proof.
  unfold decimalN. rewrite readDecimal_digitsOf; [reflexivity |].
  destruct n as [| p]; [cbn; lia |].
  rewrite Nat2N.inj_succ, N2Nat.id.
  apply N.log2_spec. lia.
Qed.

Lemma decimal_injective (t t' : Z) :
  0 <= t -> 0 <= t' -> decimal t = decimal t' -> t = t'.
Proof.
  intros Ht Ht' H.
  assert (Hd : forall z, 0 <= z -> decimal z = decimalN (Z.to_N z)).
  { intros [| p | p] Hz; [reflexivity | reflexivity | lia]. }
  rewrite (Hd t Ht), (Hd t' Ht') in H.
  apply (f_equal (readDecimal 0)) in H. rewrite !readDecimal_decimalN in H. lia.
Qed.

(** X13. The output files of two runs of the audit program have the same
    name only when the runs are for the same profile at the same
    millisecond: the name tells the profile and the clock reading apart. *)
Theorem tempFile_injective (p p' : Preset) (t t' : Z) :
  0 <= t -> 0 <= t' ->
  tempFile p t = tempFile p' t' -> p = p' /\ t = t'.
Proof.
  intros Ht Ht' H. unfold tempFile in H.
  apply (String.app_inj "temp_") in H.
  destruct p, p'; cbn [presetName] in H.
  - split; [reflexivity |].
    apply (String.app_inj "mobile"), (String.app_inj "_"), append_cancel_r in H.
    exact (decimal_injective t t' Ht Ht' H).
  - exfalso. rewrite (append_cons "m"), (append_cons "d") in H. discriminate H.
  - exfalso. rewrite (append_cons "d"), (append_cons "m") in H. discriminate H.
  - split; [reflexivity |].
    apply (String.app_inj "desktop"), (String.app_inj "_"), append_cancel_r in H.
    exact (decimal_injective t t' Ht Ht' H).
Qed.

(** X13, at the reading of the sample run for its first URL. *)
Lemma tempFile_injective_witness :
  PresetMobile = PresetMobile /\ 1735689600000 = 1735689600000.
Proof.
  apply (tempFile_injective PresetMobile PresetMobile 1735689600000 1735689600000);
    [lia | lia | reflexivity].
Defined.

Lemma plain_append (a b : string) : plain (a +:+ b) = plain a && plain b.
Proof.
  unfold plain. rewrite !occurs_append, !negb_orb.
  destruct (occurs "," a), (occurs "," b), (occurs (ascii_of_nat 10) a),
    (occurs (ascii_of_nat 10) b); reflexivity.
Qed.

Lemma plain_digit (k : N) : (k < 10)%N -> forall acc, plain acc = true ->
  plain (String (digit (N.to_nat k)) acc) = true.
Proof.
  intros Hk acc Hacc.
  change (String (digit (N.to_nat k)) acc)
    with (String (digit (N.to_nat k)) EmptyString +:+ acc).
  rewrite plain_append, Hacc, andb_true_r.
  assert (Hcases : (k = 0 \/ k = 1 \/ k = 2 \/ k = 3 \/ k = 4 \/ k = 5 \/ k = 6
                   \/ k = 7 \/ k = 8 \/ k = 9)%N) by lia.
  repeat (destruct Hcases as [-> | Hcases]; [reflexivity |]).
  subst k. reflexivity.
Qed.

Lemma plain_digitsOf (fuel : nat) :
  forall n acc, plain acc = true -> plain (digitsOf fuel n acc) = true.
Proof.
  induction fuel as [| fuel IH]; intros n acc Hacc; [exact Hacc |].
  cbn [digitsOf].
  assert (Hd : plain (String (digit (N.to_nat (n mod 10))) acc) = true).
  { apply plain_digit; [apply N.mod_lt; lia | exact Hacc]. }
  destruct (n <? 10)%N; [exact Hd | apply IH, Hd].
Qed.

Lemma plain_decimal (z : Z) : plain (decimal z) = true.
Proof.
  destruct z as [| p | p]; cbn [decimal].
  - reflexivity.
  - apply plain_digitsOf. reflexivity.
  - change (String "-" (decimalN (N.pos p)))
      with ("-" +:+ decimalN (N.pos p)).
    rewrite plain_append. apply plain_digitsOf. reflexivity.
Qed.

Lemma plain_fraction (fuel : nat) :
  forall r k, plain (Sample.fraction fuel r k) = true.
Proof.
  induction fuel as [| fuel IH]; intros r k; [reflexivity |].
  cbn [Sample.fraction]. destruct (r =? 0); [reflexivity |].
  rewrite plain_append, plain_decimal, IH. reflexivity.
Qed.

(** The numerals of the scripted host hold no comma and no line feed. *)
Lemma plain_showNumber (x : number) : plain (Sample.showNumber x) = true.
Proof.
  destruct x as [s | s | | s m e]; cbn [Sample.showNumber];
    [reflexivity | destruct s; reflexivity | reflexivity |].
  rewrite plain_append.
  apply andb_true_intro. split; [destruct s; reflexivity |].
  destruct (0 <=? e); [apply plain_decimal |].
  rewrite plain_append, plain_decimal.
  destruct (_ =? 0); [reflexivity |].
  rewrite plain_append, plain_fraction. reflexivity.
Qed.

Lemma plain_metrics (h : Host) (m : MetricSet) :
  (forall x, plain (NumberToString h x) = true) ->
  forallb plain (csvCells h m) = true.
Proof.
  intros Hnum. apply forallb_forall. intros cell Hin.
  unfold csvCells in Hin. apply in_map_iff in Hin as (v & <- & _).
  destruct v; [reflexivity | reflexivity | apply Hnum].
Qed.

(** X14. On a host whose numerals hold no comma and no line feed, if no
    configured URL holds a line feed, the CSV text of the results of the
    run is well formed: its lines are the header and one row per
    configured URL, in order, and each line has 19 columns, the first of
    which is the URL. *)
Theorem csv_of_a_run
    (h : Host) (env : option string) (s s' : State h) (results : list URLResult) :
  (forall x, plain (NumberToString h x) = true) ->
  (forall u, In u (urls env) -> occurs (ascii_of_nat 10) u = false) ->
  analyzeUrls h (urls env) s = (Normal results, s') ->
  lines (csvContent h results) = csvHeaderLine :: List.map (csvRow h) results /\
  List.map (fun row => hd EmptyString (columns row)) (List.map (csvRow h) results)
    = urls env /\
  Forall (fun row => length (columns row) = 19%nat) (lines (csvContent h results)).
Proof.
  intros Hnum Hlf Hrun.
  destruct (analyzeLoop_returns h (urls env) [] s) as (rs & s1 & Hloop & Hmap).
  unfold analyzeUrls in Hrun. rewrite Hloop in Hrun. injection Hrun as <- <-.
  cbn [app] in *.
  assert (Hrow : forall r, In r rs ->
            plain (url r) && forallb plain (csvCells h (desktop r))
              && forallb plain (csvCells h (mobile r)) = true).
  { intros r Hr. rewrite !plain_metrics, !andb_true_r by exact Hnum.
    assert (Hu : In (url r) (urls env)).
    { rewrite <- Hmap. apply in_map. exact Hr. }
    unfold plain. rewrite (Hlf _ Hu).
    destruct (urls_without_comma env (url r) Hu) as [_ ->]. reflexivity. }
  assert (Hsafe : csvSafe h rs = true).
  { unfold csvSafe. apply forallb_forall. exact Hrow. }
  pose proof (csv_lines h rs Hsafe) as Hlines.
  split; [exact Hlines |]. split.
  - rewrite <- Hmap. rewrite !List.map_map. apply map_ext_in.
    intros r Hr. rewrite (csvRow_columns h r (Hrow r Hr)). reflexivity.
  - rewrite Hlines. constructor; [vm_compute; reflexivity |].
    apply List.Forall_forall. intros row Hin.
    apply in_map_iff in Hin as (r & <- & Hr).
    rewrite (csvRow_columns h r (Hrow r Hr)).
    cbn [length]. rewrite length_app, !csvCells_length. reflexivity.
Qed.

(** X14, on the sample run over two URLs. *)
Lemma csv_of_a_run_witness :
  lines (csvContent Sample.host Sample.twoUrlBatch)
    = csvHeaderLine :: List.map (csvRow Sample.host) Sample.twoUrlBatch /\
  List.map (fun row => hd EmptyString (columns row))
    (List.map (csvRow Sample.host) Sample.twoUrlBatch)
    = urls (Some "https://a.example,https://b.example") /\
  Forall (fun row => length (columns row) = 19%nat)
    (lines (csvContent Sample.host Sample.twoUrlBatch)).
Proof.
  apply (csv_of_a_run Sample.host (Some "https://a.example,https://b.example")
           (Sample.start 1000 [Some "good"; Some "good"; None; Some "zero"])
           (snd (analyzeUrls Sample.host (urls (Some "https://a.example,https://b.example"))
                   (Sample.start 1000 [Some "good"; Some "good"; None; Some "zero"])))).
  - exact plain_showNumber.
  - intros u Hu. vm_compute in Hu.
    destruct Hu as [<- | [<- | []]]; reflexivity.
  - apply pair_from_fst. vm_compute. reflexivity.
Defined.

Lemma score_is_field (name : string) (m : MetricSet) :
  In (scoreOf name m) (metricFields m).
Proof.
  unfold scoreOf, metricFields.
  repeat match goal with |- context [if ?b then _ else _] => destruct b end;
    cbn [In]; tauto.
Qed.

Lemma indicator_of_number (x : number) : getEmojiHTML (Num x) <> indicatorNeutral.
Proof.
  unfold getEmojiHTML.
  destruct (ge x (ofZ 90)); [discriminate |].
  destruct (ge x (ofZ 50)); discriminate.
Qed.

(** X15. In the results of a run, the indicator the email shows for a score
    of a profile is the neutral one exactly when the profile failed, that
    is, when its metric set carries an error message; and then the score
    is printed as ERR in the email and as ERROR in the CSV file. *)
Theorem indicator_neutral_iff_failed
    (h : Host) (urls : list string) (s s' : State h) (results : list URLResult)
    (r : URLResult) (preset : Preset) (name : string) :
  analyzeUrls h urls s = (Normal results, s') ->
  In r results ->
  In name scoreNames ->
  (getEmojiHTML (scoreOf name (metricsFor preset r)) = indicatorNeutral <->
   exists msg, error (metricsFor preset r) = Some msg) /\
  ((exists msg, error (metricsFor preset r) = Some msg) ->
   scoreText h (scoreOf name (metricsFor preset r)) = "ERR" /\
   orElse h "ERROR" (scoreOf name (metricsFor preset r)) = "ERROR").
Proof.
  intros Hrun Hin Hname.
  pose proof (analyzeUrls_shapes h urls s s' results Hrun) as Hall.
  rewrite List.Forall_forall in Hall. destruct (Hall r Hin) as [Hd Hm].
  assert (Hshape : failedShape (metricsFor preset r) \/
                   extractedShape (metricsFor preset r))
    by (destruct preset; assumption).
  clear Hd Hm Hall Hrun Hin.
  destruct Hshape as [[Habsent Herr] | (Hnone & Hscores & _)].
  - assert (Hnull : scoreOf name (metricsFor preset r) = Null).
    { unfold allAbsent in Habsent. rewrite List.Forall_forall in Habsent.
      apply Habsent, score_is_field. }
    rewrite Hnull. split; [split; [intros _; exact Herr | reflexivity] |].
    intros _. split; reflexivity.
  - destruct (Hscores name Hname) as [x Hx]. rewrite Hx. split.
    + split.
      * intros H. destruct (indicator_of_number x H).
      * intros [msg Hmsg]. rewrite Hnone in Hmsg. discriminate Hmsg.
    + intros [msg Hmsg]. rewrite Hnone in Hmsg. discriminate Hmsg.
Qed.

(** X15, on the second result of the sample run, whose mobile audit failed. *)
Lemma indicator_neutral_iff_failed_witness :
  getEmojiHTML
    (scoreOf "seo"
       (metricsFor PresetMobile
          (List.last Sample.twoUrlBatch
             {| url := EmptyString;
                desktop := failedMetrics (mkError EmptyString);
                mobile := failedMetrics (mkError EmptyString) |})))
    = indicatorNeutral.
Proof.
  apply (indicator_neutral_iff_failed Sample.host
           ["https://a.example"; "https://b.example"]
           (Sample.start 1000 [Some "good"; Some "good"; None; Some "zero"])
           (snd (analyzeUrls Sample.host ["https://a.example"; "https://b.example"]
                   (Sample.start 1000 [Some "good"; Some "good"; None; Some "zero"])))
           Sample.twoUrlBatch
           (List.last Sample.twoUrlBatch
              {| url := EmptyString;
                 desktop := failedMetrics (mkError EmptyString);
                 mobile := failedMetrics (mkError EmptyString) |})
           PresetMobile "seo").
  - apply pair_from_fst. vm_compute. reflexivity.
  - vm_compute. right. left. reflexivity.
  - vm_compute. tauto.
  - vm_compute. eexists. reflexivity.
Defined.
